(** * The MCP app server (server/src/server.ts), embedded and verified

    The development follows the source file top to bottom: constants and
    the port, [loadWidgetAssets], the tool handlers and
    [createServerInstance], the session table with [handleSseRequest] and
    [handlePostMessage], and the request router.  Objects that the source
    mutates and shares (McpServer instances, SSE transports, the session
    map, the console) live in an explicit [World]; exceptions are explicit
    completions.  What the Node runtime and the MCP SDK decide (the file
    system, string-to-number conversion, path joining, the outcome of
    [server.connect] and of the transport's own [handlePostMessage]) enters
    as data. *)

From Stdlib Require Import QArith.
From stdpp Require Import gmap strings list fin_maps pretty.

Local Open Scope string_scope.

(** ** JavaScript values used by the server *)

(** A thrown [Error]: only its message is observable here. *)
Record JsError := mkError { err_message : string }.

(** Result of evaluating code that may throw. *)
Inductive Completion (A : Type) : Type :=
| Normal (a : A)
| Throw (e : JsError).
Arguments Normal {A} a.
Arguments Throw {A} e.

(** A JS number: a finite double (every one is a rational), NaN, or an
    infinity. *)
Inductive JsNumber : Type :=
| NFinite (q : Q)
| NNaN
| NInfinity (negative : bool).

(** [Number.isFinite]. *)
Definition isFinite (n : JsNumber) : bool :=
  match n with
  | NFinite _ => true
  | _ => false
  end.

(** JSON-like data: object literals returned by tool handlers and the
    bodies of tool calls. *)
#[local] Unset Elimination Schemes.
Inductive JValue : Type :=
| JNull
| JBool (b : bool)
| JNum (n : Z)
| JStr (s : string)
| JArr (items : list JValue)
| JObj (fields : list (string * JValue)).
#[local] Set Elimination Schemes.

(** Property read [o.k]; [None] is [undefined]. *)
Fixpoint assoc_get {A : Type} (k : string) (l : list (string * A)) : option A :=
  match l with
  | [] => None
  | (k', v) :: rest => if String.eqb k k' then Some v else assoc_get k rest
  end.

Definition jget (k : string) (v : JValue) : option JValue :=
  match v with
  | JObj fields => assoc_get k fields
  | _ => None
  end.

(** The characters that cannot be written inside a string literal. *)
Definition dquote : string := String (Ascii.ascii_of_nat 34) EmptyString.
Definition newline : string := String (Ascii.ascii_of_nat 10) EmptyString.

(** [s.includes(t)]. *)
Fixpoint includes (s t : string) : bool :=
  String.prefix t s ||
  match s with
  | EmptyString => false
  | String _ s' => includes s' t
  end.

(** ** Constants (server.ts:46-60) *)

Definition ssePath : string := "/mcp".
Definition postPath : string := "/mcp/messages".

Section Port.
(** [StringToNumber] of ECMAScript, applied by [Number(...)] to a string. *)
Variable StringToNumber : string -> JsNumber.

(** [a ?? b]. *)
Definition nullish {A B : Type} (a : option A) (b : B) : A + B :=
  match a with
  | Some x => inl x
  | None => inr b
  end.

(** [Number(v)] for [v] a string or already a number. *)
Definition Number (v : string + JsNumber) : JsNumber :=
  match v with
  | inl s => StringToNumber s
  | inr n => n
  end.

(** [const portEnv = Number(process.env.PORT ?? 8000)]. *)
Definition portEnv (PORT : option string) : JsNumber :=
  Number (nullish PORT (NFinite 8000)).

(** [const port = Number.isFinite(portEnv) ? portEnv : 8000]. *)
Definition port (PORT : option string) : JsNumber :=
  if isFinite (portEnv PORT) then portEnv PORT else NFinite 8000.
End Port.

(** A conversion used to run [port] on examples: the unsigned decimal
    fragment of [StringToNumber] (the empty string converts to 0, anything
    that is not a digit string here converts to NaN). *)
Definition digit_value (c : Ascii.ascii) : option N :=
  let n := Ascii.N_of_ascii c in
  if ((48 <=? n) && (n <=? 57))%N then Some (n - 48)%N else None.

Fixpoint digits_value (acc : N) (s : string) : option N :=
  match s with
  | EmptyString => Some acc
  | String c s' =>
      match digit_value c with
      | Some d => digits_value (10 * acc + d)%N s'
      | None => None
      end
  end.

Definition decimalToNumber (s : string) : JsNumber :=
  match digits_value 0%N s with
  | Some n => NFinite (inject_Z (Z.of_N n))
  | None => NNaN
  end.

(** ** The file system seen by [loadWidgetAssets] *)

Inductive FsNode : Type :=
| FsFile (content : string)
| FsDir.

Abbreviation FileSystem := (gmap string FsNode).

(** [fs.existsSync(p)]. *)
Definition existsSync (fs : FileSystem) (p : string) : bool :=
  match fs !! p with
  | Some _ => true
  | None => false
  end.

(** [fs.readFileSync(p, "utf8")]: throws on a missing path and on a
    directory. *)
Definition readFileSync (fs : FileSystem) (p : string) : Completion string :=
  match fs !! p with
  | Some (FsFile content) => Normal content
  | Some FsDir => Throw (mkError "EISDIR: illegal operation on a directory, read")
  | None => Throw (mkError ("ENOENT: no such file or directory, open '" +:+ p +:+ "'"))
  end.

Record WidgetAssets := mkAssets { js : string; css : string; html : string }.

(** The remediation command quoted in both error messages. *)
Definition buildCommand : string := "cd web && pnpm run build".

(** [path.join] on an absolute, normalised directory and a plain file name. *)
Definition join_plain (dir file : string) : string := dir +:+ "/" +:+ file.

(** ** Objects shared by reference *)

(** Object identity: an address in one of the stores of the [World]. *)
Abbreviation handle := nat.

(** [ServerResponse] of node:http, as far as the server drives it. *)
Record ServerResponse := mkRes {
  res_headers : list (string * string);
  statusCode : nat;
  headersSent : bool;
  res_body : string;
  writableEnded : bool
}.

Definition freshResponse : ServerResponse := mkRes [] 200 false EmptyString false.

(** [type SessionRecord] (server.ts:38-41): two object references. *)
Record SessionRecord := mkSession { server : handle; transport : handle }.

(** The closures assigned to [transport.onclose]: the one of server.ts
    (lines 391-395) captures [sessionId]; the one of the earlier revision
    kept in src/unnamed/part_000 (lines 224-227) also captures [server]. *)
Inductive CloseCallback : Type :=
| OnClose (sessionId : string)
| OnCloseAndServerClose (sessionId : string) (server : handle).

(** The closure assigned to [transport.onerror] (server.ts:397-399). *)
Inductive ErrorCallback : Type :=
| OnErrorLog.

Record SSEServerTransport := mkTransport {
  endpoint : string;
  t_res : handle;
  sessionId : string;
  onclose : option CloseCallback;
  onerror : option ErrorCallback
}.

(** What a tool handler returns. *)
Record TextContent := mkText { c_type : string; c_text : string }.

Record CallToolResult := mkResult {
  content : list TextContent;
  structuredContent : JValue;
  _meta : JValue
}.

(** [new Date().toISOString()]: the n-th reading taken during one call. *)
Abbreviation Clock := (nat -> string).

(** A zod schema is a parser of a possibly undefined raw value. *)
Abbreviation Zod A := (option JValue -> option A).

Definition z_string : Zod string :=
  fun raw => match raw with Some (JStr s) => Some s | _ => None end.

Definition z_boolean : Zod bool :=
  fun raw => match raw with Some (JBool b) => Some b | _ => None end.

Definition z_optional {A : Type} (z : Zod A) : Zod (option A) :=
  fun raw => match raw with None => Some None | Some _ => Some <$> z raw end.

Definition z_array {A : Type} (z : Zod A) : Zod (list A) :=
  fun raw =>
    match raw with
    | Some (JArr items) => mapM (fun item => z (Some item)) items
    | _ => None
    end.

(** An object shape: [parse] reads the declared keys of the object. *)
Definition z_object {A : Type} (parse : JValue -> option A) : Zod A :=
  fun raw => match raw with Some (JObj fields) => parse (JObj fields) | _ => None end.

Definition z_key {A : Type} (k : string) (z : Zod A) (o : JValue) : option A :=
  z (jget k o).

(** Outcome of calling a registered tool on a raw argument. *)
Inductive ToolOutcome : Type :=
| InvalidInputError
| ToolReturned (result : CallToolResult) (logged : list string).

Record RegisteredTool := mkTool {
  tool_title : string;
  tool_description : string;
  tool_meta : list (string * string);
  tool_call : Clock -> option JValue -> ToolOutcome
}.

Record RegisteredResource := mkResource {
  resource_name : string;
  resource_read : JValue
}.

(** An [McpServer] object: its private tool and resource registries. *)
Record McpServer := mkServer {
  server_name : string;
  server_version : string;
  registeredResources : gmap string RegisteredResource;
  registeredTools : gmap string RegisteredTool
}.

(** What the program does that is observable besides the stores. *)
Inductive Effect : Type :=
| SessionsDelete (sessionId : string)
| ConsoleError (label detail : string)
| ServerClose (server : handle)
| HandlePostMessage (transport : handle).

(** ** The world: module-level state and the heap *)

Record World := mkWorld {
  disk : FileSystem;
  servers : gmap handle McpServer;
  transports : gmap handle SSEServerTransport;
  responses : gmap handle ServerResponse;
  sessions : gmap string SessionRecord;
  trace : list Effect
}.

Definition with_servers (f : gmap handle McpServer -> gmap handle McpServer) (w : World) : World :=
  mkWorld (disk w) (f (servers w)) (transports w) (responses w) (sessions w) (trace w).

Definition with_transports (f : gmap handle SSEServerTransport -> gmap handle SSEServerTransport)
  (w : World) : World :=
  mkWorld (disk w) (servers w) (f (transports w)) (responses w) (sessions w) (trace w).

Definition with_responses (f : gmap handle ServerResponse -> gmap handle ServerResponse)
  (w : World) : World :=
  mkWorld (disk w) (servers w) (transports w) (f (responses w)) (sessions w) (trace w).

Definition with_sessions (f : gmap string SessionRecord -> gmap string SessionRecord)
  (w : World) : World :=
  mkWorld (disk w) (servers w) (transports w) (responses w) (f (sessions w)) (trace w).

Definition emit (e : Effect) (w : World) : World :=
  mkWorld (disk w) (servers w) (transports w) (responses w) (sessions w) (e :: trace w).

(** ** Computations: state passing with exceptions *)

Definition M (A : Type) : Type := World -> Completion A * World.

Definition ret {A : Type} (a : A) : M A := fun w => (Normal a, w).

Definition throw {A : Type} (e : JsError) : M A := fun w => (Throw e, w).

Definition bind {A B : Type} (m : M A) (k : A -> M B) : M B :=
  fun w =>
    match m w with
    | (Normal a, w') => k a w'
    | (Throw e, w') => (Throw e, w')
    end.

(** [try { m } catch (error) { h error }]. *)
Definition try_catch {A : Type} (m : M A) (h : JsError -> M A) : M A :=
  fun w =>
    match m w with
    | (Normal a, w') => (Normal a, w')
    | (Throw e, w') => h e w'
    end.

Definition gets {A : Type} (f : World -> A) : M A := fun w => (Normal (f w), w).

Definition modify (f : World -> World) : M unit := fun w => (Normal tt, f w).

Definition liftC {A : Type} (c : Completion A) : M A := fun w => (c, w).

Notation "x <- m ;; k" := (bind m (fun x => k))
  (at level 20, m at level 99, k at level 200, only parsing).
Notation "m ;; k" := (bind m (fun _ => k))
  (at level 100, k at level 200, right associativity, only parsing).

(** ** node:http responses *)

Definition dangling : JsError := mkError "TypeError: reference to an object that was never allocated".

Definition ERR_HTTP_HEADERS_SENT : JsError :=
  mkError "Cannot set headers after they are sent to the client".

Definition new_ServerResponse : M handle :=
  fun w =>
    let res := fresh (dom (responses w)) in
    (Normal res, with_responses (insert res freshResponse) w).

Definition read_res (res : handle) : M ServerResponse :=
  fun w =>
    match responses w !! res with
    | Some r => (Normal r, w)
    | None => (Throw dangling, w)
    end.

Definition write_res (res : handle) (r : ServerResponse) : M unit :=
  modify (with_responses (insert res r)).

(** [res.setHeader(name, value)]. *)
Definition setHeader (res : handle) (name value : string) : M unit :=
  r <- read_res res ;;
  if headersSent r then throw ERR_HTTP_HEADERS_SENT
  else write_res res
         (mkRes ((name, value) :: res_headers r) (statusCode r) false (res_body r) (writableEnded r)).

(** [res.writeHead(code, headers)]. *)
Definition writeHead (res : handle) (code : nat) (headers : list (string * string)) : M unit :=
  r <- read_res res ;;
  if headersSent r then throw ERR_HTTP_HEADERS_SENT
  else write_res res
         (mkRes (headers ++ res_headers r) code true (res_body r) (writableEnded r)).

(** [res.end(data)]. *)
Definition end_ (res : handle) (data : string) : M unit :=
  r <- read_res res ;;
  if writableEnded r then ret tt
  else write_res res
         (mkRes (res_headers r) (statusCode r) true (res_body r +:+ data) true).

(** ** The session map (server.ts:52) *)

(** [sessions.set(id, record)]. *)
Definition sessions_set (id : string) (record : SessionRecord) : M unit :=
  modify (with_sessions (insert id record)).

(** [sessions.get(id)]; [None] is [undefined]. *)
Definition sessions_get (id : string) : M (option SessionRecord) :=
  gets (fun w => sessions w !! id).

(** [sessions.delete(id)]: answers whether an entry was removed. *)
Definition sessions_delete (id : string) : M bool :=
  existed <- gets (fun w => bool_decide (is_Some (sessions w !! id))) ;;
  modify (fun w => emit (SessionsDelete id) (with_sessions (delete id) w)) ;;
  ret existed.

Definition console_error (label detail : string) : M unit :=
  modify (emit (ConsoleError label detail)).

(** ** What the MCP SDK contributes *)

(** The registries belong to the SDK's [McpServer]; registration and
    invocation follow the registry contracts of the specification
    (sections 4.1 and 4.2): a second registration under a taken key
    throws, an unknown name and a raw input outside the input shape are
    reported, anything else reaches the bound handler. *)
Definition new_McpServer (name version : string) : M handle :=
  fun w =>
    let h := fresh (dom (servers w)) in
    (Normal h, with_servers (insert h (mkServer name version ∅ ∅)) w).

Definition read_server (h : handle) : M McpServer :=
  fun w =>
    match servers w !! h with
    | Some s => (Normal s, w)
    | None => (Throw dangling, w)
    end.

Definition registerResource (h : handle) (name uri : string) (read : JValue) : M unit :=
  s <- read_server h ;;
  match registeredResources s !! uri with
  | Some _ => throw (mkError ("Resource " +:+ uri +:+ " is already registered"))
  | None =>
      modify (with_servers (insert h
        (mkServer (server_name s) (server_version s)
           (<[uri := mkResource name read]> (registeredResources s))
           (registeredTools s))))
  end.

Definition registerTool (h : handle) (name : string) (tool : RegisteredTool) : M unit :=
  s <- read_server h ;;
  match registeredTools s !! name with
  | Some _ => throw (mkError ("Tool " +:+ name +:+ " is already registered"))
  | None =>
      modify (with_servers (insert h
        (mkServer (server_name s) (server_version s)
           (registeredResources s)
           (<[name := tool]> (registeredTools s)))))
  end.

Inductive InvokeResult : Type :=
| UnknownOperationError
| InvalidInput
| Invoked (result : CallToolResult) (logged : list string).

Definition invoke (s : McpServer) (now : Clock) (name : string) (rawInput : option JValue)
  : InvokeResult :=
  match registeredTools s !! name with
  | None => UnknownOperationError
  | Some tool =>
      match tool_call tool now rawInput with
      | InvalidInputError => InvalidInput
      | ToolReturned result logged => Invoked result logged
      end
  end.

(** A tool as passed to [server.registerTool(name, config, callback)]:
    the callback runs on the input parsed by [inputSchema]; a call
    without arguments is parsed as the empty object. *)
Definition tool {A : Type} (title description : string) (inputSchema : Zod A)
  (meta : list (string * string)) (callback : Clock -> A -> CallToolResult * list string)
  : RegisteredTool :=
  mkTool title description meta
    (fun now raw =>
       match inputSchema (Some (default (JObj []) raw)) with
       | None => InvalidInputError
       | Some args => let '(result, logged) := callback now args in ToolReturned result logged
       end).

(** [new SSEServerTransport(endpoint, res)]; the constructor draws the
    session id, given here as [id]. *)
Definition new_SSEServerTransport (endpoint : string) (res : handle) (id : string) : M handle :=
  fun w =>
    let t := fresh (dom (transports w)) in
    (Normal t, with_transports (insert t (mkTransport endpoint res id None None)) w).

Definition read_transport (t : handle) : M SSEServerTransport :=
  fun w =>
    match transports w !! t with
    | Some tr => (Normal tr, w)
    | None => (Throw dangling, w)
    end.

(** [transport.onclose = cb]. *)
Definition set_onclose (t : handle) (cb : CloseCallback) : M unit :=
  modify (with_transports (alter
    (fun tr => mkTransport (endpoint tr) (t_res tr) (sessionId tr) (Some cb) (onerror tr)) t)).

(** [transport.onerror = cb]. *)
Definition set_onerror (t : handle) (cb : ErrorCallback) : M unit :=
  modify (with_transports (alter
    (fun tr => mkTransport (endpoint tr) (t_res tr) (sessionId tr) (onclose tr) (Some cb)) t)).

(** An awaited SDK call that works on [res]: the state it leaves the
    response in, and the error it rejects with, if any. *)
Record SdkOutcome := mkOutcome { sdk_res : ServerResponse; sdk_error : option JsError }.

Definition await_sdk (o : SdkOutcome) (res : handle) : M unit :=
  write_res res (sdk_res o) ;;
  match sdk_error o with
  | Some e => throw e
  | None => ret tt
  end.

(** [transport.handlePostMessage(req, res)] on the transport object at
    [t]: the call is recorded with the transport it was made on; what it
    does to the response and whether it throws is the SDK's. *)
Definition transport_handlePostMessage (t : handle) (o : SdkOutcome) (res : handle) : M unit :=
  read_transport t ;;
  modify (emit (HandlePostMessage t)) ;;
  await_sdk o res.

(** What the SDK decides while one request is handled. *)
Record Sdk := mkSdk {
  sdk_sessionId : string;
  sdk_connect : SdkOutcome;
  sdk_handlePostMessage : SdkOutcome
}.

(** [await server.close()] of the earlier revision.  Only the call is
    recorded: inside the SDK it closes the transport, which fires the
    close callback again (the circular call that the comment at
    server.ts:393-394 names).  That re-entry is not modelled, so no
    property of this file speaks of what a close does on a transport
    opened by the earlier revision. *)
Definition server_close (h : handle) : M unit := modify (emit (ServerClose h)).

(** ** Tool handlers (server.ts:186-238, 257-314, 340-367) *)

Record Todo := mkTodo {
  todo_id : string;
  todo_title : string;
  isComplete : bool;
  note : string;
  dueDate : option string
}.

Definition todo_json (t : Todo) : JValue :=
  JObj [("id", JStr (todo_id t));
        ("title", JStr (todo_title t));
        ("isComplete", JBool (isComplete t));
        ("note", JStr (note t));
        ("dueDate", match dueDate t with Some d => JStr d | None => JNull end)].

Definition sampleTodos : list Todo :=
  [mkTodo "1" "Learn about ChatGPT Apps SDK" false
     "Study the window.openai API integration" (Some "2024-01-15");
   mkTodo "2" "Build an interactive widget" true
     "Implement two-way communication with ChatGPT" (Some "2024-01-10");
   mkTodo "3" "Deploy to production" false
     "Test with real ChatGPT integration" None].

Definition refreshedTodos : list Todo :=
  sampleTodos ++
  [mkTodo "4" "Add new feature" false "This todo was added during refresh" (Some "2024-01-20")].

(** [x || d] on an optional string: undefined and the empty string are
    falsy. *)
Definition or_else (x : option string) (d : string) : string :=
  match x with
  | Some s => if String.eqb s EmptyString then d else s
  | None => d
  end.

Definition jlen {A : Type} (l : list A) : JValue := JNum (Z.of_nat (length l)).

(** [s.length] counts UTF-16 code units; a string here is the UTF-8
    bytes of the text: a continuation byte adds nothing, the lead byte of
    a four-byte sequence stands for a surrogate pair. *)
Definition utf16_units (byte : Ascii.ascii) : nat :=
  let n := Ascii.N_of_ascii byte in
  if (n <? 128)%N then 1
  else if (n <? 192)%N then 0
  else if (n <? 240)%N then 1
  else 2.

Fixpoint js_length (s : string) : nat :=
  match s with
  | EmptyString => 0
  | String byte rest => utf16_units byte + js_length rest
  end.

Definition todo_list_json (listId : string) (todos : list Todo) : JValue :=
  JObj [("id", JStr listId);
        ("title", JStr "My Tasks");
        ("isCurrentlyOpen", JBool true);
        ("todos", JArr (todo_json <$> todos))].

(** The show-todo callback of server.ts. *)
Definition show_todo_handler (message : string) (userId : option string) : CallToolResult :=
  mkResult
    [mkText "text" ("Rendered a todo list! " +:+ message)]
    (JObj [("lists", JArr [todo_list_json "main-list" sampleTodos]);
           ("message", JStr message);
           ("userId", JStr (or_else userId "anonymous"))])
    (JObj [("messageLen", JNum (Z.of_nat (js_length message)));
           ("totalTodos", jlen sampleTodos);
           ("completedTodos", jlen (filter (fun t => isComplete t = true) sampleTodos))]).

(** The show-todo callback of the earlier revision (part_000:185-200). *)
Definition show_todo_handler_part000 (message : string) : CallToolResult :=
  mkResult
    [mkText "text" "Rendered a todo list!"]
    (JObj [("message", JStr message)])
    (JObj [("messageLen", JNum (Z.of_nat (js_length message)))]).

Definition refresh_todos_handler (now : Clock) (listId userId : option string) : CallToolResult :=
  mkResult
    [mkText "text"
       ("Refreshed todo list data. Found " +:+ pretty (length refreshedTodos) +:+ " todos.")]
    (JObj [("lists", JArr [todo_list_json (or_else listId "main-list") refreshedTodos]);
           ("refreshedAt", JStr (now 0));
           ("userId", JStr (or_else userId "anonymous"))])
    (JObj [("totalTodos", jlen refreshedTodos);
           ("refreshedAt", JStr (now 1))]).

Record SavedTodo := mkSaved {
  saved_id : string;
  saved_title : string;
  saved_isComplete : bool;
  saved_note : option string;
  saved_dueDate : option string
}.

Definition save_todo_state_handler (now : Clock) (todos : list SavedTodo)
  (listId userId : option string) : CallToolResult * list string :=
  (mkResult
     [mkText "text" ("Saved " +:+ pretty (length todos) +:+ " todos successfully.")]
     (JObj [("success", JBool true);
            ("savedTodos", jlen todos);
            ("listId", JStr (or_else listId "main-list"));
            ("userId", JStr (or_else userId "anonymous"));
            ("savedAt", JStr (now 0))])
     (JObj [("savedTodos", jlen todos);
            ("savedAt", JStr (now 1))]),
   ["Saving " +:+ pretty (length todos) +:+ " todos for user " +:+ or_else userId "anonymous"]).

(** *** Input shapes *)

Definition show_todo_inputSchema : Zod (string * option string) :=
  z_object (fun o =>
    message ← z_key "message" z_string o;
    userId ← z_key "userId" (z_optional z_string) o;
    Some (message, userId)).

Definition show_todo_inputSchema_part000 : Zod string :=
  z_object (fun o => z_key "message" z_string o).

Definition refresh_todos_inputSchema : Zod (option string * option string) :=
  z_object (fun o =>
    listId ← z_key "listId" (z_optional z_string) o;
    userId ← z_key "userId" (z_optional z_string) o;
    Some (listId, userId)).

Definition saved_todo_schema : Zod SavedTodo :=
  z_object (fun o =>
    id ← z_key "id" z_string o;
    title ← z_key "title" z_string o;
    done ← z_key "isComplete" z_boolean o;
    note ← z_key "note" (z_optional z_string) o;
    dueDate ← z_key "dueDate" (z_optional z_string) o;
    Some (mkSaved id title done note dueDate)).

Definition save_todo_state_inputSchema
  : Zod (list SavedTodo * option string * option string) :=
  z_object (fun o =>
    todos ← z_key "todos" (z_array saved_todo_schema) o;
    listId ← z_key "listId" (z_optional z_string) o;
    userId ← z_key "userId" (z_optional z_string) o;
    Some (todos, listId, userId)).

(** *** Descriptors *)

Definition todoUri : string := "ui://widget/todo.html".

Definition show_todo_tool : RegisteredTool :=
  tool "Show Todo List" "Display a todo list widget" show_todo_inputSchema
    [("openai/outputTemplate", todoUri);
     ("openai/toolInvocation/invoking", "Creating a todo list");
     ("openai/toolInvocation/invoked", "Todo list displayed")]
    (fun _ '(message, userId) => (show_todo_handler message userId, [])).

Definition show_todo_tool_part000 : RegisteredTool :=
  tool "Show Todo List" "Display a todo list widget" show_todo_inputSchema_part000
    [("openai/outputTemplate", todoUri);
     ("openai/toolInvocation/invoking", "Creating a todo list");
     ("openai/toolInvocation/invoked", "Todo list displayed")]
    (fun _ message => (show_todo_handler_part000 message, [])).

Definition refresh_todos_tool : RegisteredTool :=
  tool "Refresh Todo List" "Refresh the todo list data from the server"
    refresh_todos_inputSchema
    [("openai/toolInvocation/invoking", "Refreshing todo list data");
     ("openai/toolInvocation/invoked", "Todo list refreshed")]
    (fun now '(listId, userId) => (refresh_todos_handler now listId userId, [])).

Definition save_todo_state_tool : RegisteredTool :=
  tool "Save Todo State" "Save the current state of the todo list"
    save_todo_state_inputSchema
    [("openai/toolInvocation/invoking", "Saving todo list state");
     ("openai/toolInvocation/invoked", "Todo list state saved")]
    (fun now '(todos, listId, userId) => save_todo_state_handler now todos listId userId).

(** The value produced by the resource callback (server.ts:147-164). *)
Definition todo_widget_contents (todoAssets : WidgetAssets) : JValue :=
  JObj [("contents", JArr [JObj
    [("uri", JStr todoUri);
     ("mimeType", JStr "text/html+skybridge");
     ("text", JStr (html todoAssets));
     ("_meta", JObj
        [("openai/widgetDescription", JStr "A todo list widget");
         ("openai/widgetPrefersBorder", JBool true);
         ("openai/widgetDomain", JStr "https://chatgpt.com");
         ("openai/widgetCSP", JObj
            [("connect_domains", JArr [JStr "https://chatgpt.com"]);
             ("resource_domains", JArr [JStr "https://*.oaistatic.com"])])])]])].

(** The statically known descriptors, as registries: what server.ts
    registers, and what the earlier revision registers. *)
Definition knownTools : gmap string RegisteredTool :=
  <["save-todo-state" := save_todo_state_tool]>
    (<["refresh-todos" := refresh_todos_tool]>
       (<["show-todo" := show_todo_tool]> ∅)).

Definition knownTools_part000 : gmap string RegisteredTool :=
  <["show-todo" := show_todo_tool_part000]> ∅.

Definition knownResources (todoAssets : WidgetAssets) : gmap string RegisteredResource :=
  <[todoUri := mkResource "todo-widget" (todo_widget_contents todoAssets)]> ∅.

(** ** The server proper *)

Record URL := mkURL { pathname : string; searchParams : list (string * string) }.

(** A request after server.ts:468-473: the method and the parsed URL;
    [None] stands for a missing or empty [req.url].  The request as it
    arrives, and the parse that can throw, are [RawRequest] and
    [listener] below. *)
Record IncomingMessage := mkReq { method : string; url : option URL }.

Section Server.
(** [ASSETS_DIR] is resolved from the location of server.ts; [path.join]
    is Node's. *)
Variable ASSETS_DIR : string.
Variable path_join : string -> string -> string.

Definition assetsDirMissing : JsError :=
  mkError ("Widget assets not found. Expected directory " +:+ ASSETS_DIR +:+
           ". Run " +:+ dquote +:+ buildCommand +:+ dquote +:+
           " before starting the server.").

Definition widgetJsMissing (componentName jsPath : string) : JsError :=
  mkError ("Widget JS for " +:+ dquote +:+ componentName +:+ dquote +:+
           " not found at " +:+ jsPath +:+
           ". Run " +:+ dquote +:+ buildCommand +:+ dquote +:+
           " to generate the assets.").

(** The template literal of server.ts:104-108 after [.trim()]. *)
Definition widgetHtml (componentName js css : string) : string :=
  "<div id=" +:+ dquote +:+ componentName +:+ "-root" +:+ dquote +:+ "></div>" +:+
  newline +:+
  (if String.eqb css EmptyString then EmptyString
   else "<style>" +:+ css +:+ "</style>") +:+
  newline +:+
  "<script type=" +:+ dquote +:+ "module" +:+ dquote +:+ ">" +:+ js +:+ "</script>".

(** server.ts:73-111. *)
Definition loadWidgetAssets (fs : FileSystem) (componentName : string)
  : Completion WidgetAssets :=
  if negb (existsSync fs ASSETS_DIR) then Throw assetsDirMissing
  else
    let jsPath := path_join ASSETS_DIR (componentName +:+ ".js") in
    if negb (existsSync fs jsPath) then Throw (widgetJsMissing componentName jsPath)
    else
      match readFileSync fs jsPath with
      | Throw e => Throw e
      | Normal js =>
          let cssPath := path_join ASSETS_DIR (componentName +:+ ".css") in
          let css :=
            match readFileSync fs cssPath with
            | Normal s => s
            | Throw _ => EmptyString
            end in
          Normal (mkAssets js css (widgetHtml componentName js css))
      end.

(** server.ts:121-371. *)
Definition createServerInstance : M handle :=
  server <- new_McpServer "mcp-app-server" "1.0.0" ;;
  todoAssets <- (fun w => (loadWidgetAssets (disk w) "todo", w)) ;;
  registerResource server "todo-widget" todoUri (todo_widget_contents todoAssets) ;;
  registerTool server "show-todo" show_todo_tool ;;
  registerTool server "refresh-todos" refresh_todos_tool ;;
  registerTool server "save-todo-state" save_todo_state_tool ;;
  ret server.

(** part_000:121-204. *)
Definition createServerInstance_part000 : M handle :=
  server <- new_McpServer "mcp-app-server" "1.0.0" ;;
  todoAssets <- (fun w => (loadWidgetAssets (disk w) "todo", w)) ;;
  registerResource server "todo-widget" todoUri (todo_widget_contents todoAssets) ;;
  registerTool server "show-todo" show_todo_tool_part000 ;;
  ret server.

(** The catch block shared by both revisions of [handleSseRequest]. *)
Definition sse_connect_failed (sessionId : string) (res : handle) (error : JsError) : M unit :=
  sessions_delete sessionId ;;
  console_error "Failed to start SSE session" (err_message error) ;;
  r <- read_res res ;;
  if negb (headersSent r) then
    writeHead res 500 [] ;;
    end_ res "Failed to establish SSE connection"
  else ret tt.

(** server.ts:383-410. *)
Definition handleSseRequest (sdk : Sdk) (res : handle) : M unit :=
  setHeader res "Access-Control-Allow-Origin" "*" ;;
  server <- createServerInstance ;;
  transport <- new_SSEServerTransport postPath res (sdk_sessionId sdk) ;;
  let sessionId := sdk_sessionId sdk in
  sessions_set sessionId (mkSession server transport) ;;
  set_onclose transport (OnClose sessionId) ;;
  set_onerror transport OnErrorLog ;;
  try_catch (await_sdk (sdk_connect sdk) res) (sse_connect_failed sessionId res).

(** part_000:216-242. *)
Definition handleSseRequest_part000 (sdk : Sdk) (res : handle) : M unit :=
  setHeader res "Access-Control-Allow-Origin" "*" ;;
  server <- createServerInstance_part000 ;;
  transport <- new_SSEServerTransport postPath res (sdk_sessionId sdk) ;;
  let sessionId := sdk_sessionId sdk in
  sessions_set sessionId (mkSession server transport) ;;
  set_onclose transport (OnCloseAndServerClose sessionId server) ;;
  set_onerror transport OnErrorLog ;;
  try_catch (await_sdk (sdk_connect sdk) res) (sse_connect_failed sessionId res).

(** [url.searchParams.get(name)]: the first value under [name]. *)
Definition searchParams_get (u : URL) (name : string) : option string :=
  assoc_get name (searchParams u).

(** [!sessionId] on [string | null]. *)
Definition falsy (s : option string) : bool :=
  match s with
  | None => true
  | Some v => String.eqb v EmptyString
  end.

(** server.ts:422-452. *)
Definition handlePostMessage (sdk : Sdk) (res : handle) (u : URL) : M unit :=
  setHeader res "Access-Control-Allow-Origin" "*" ;;
  setHeader res "Access-Control-Allow-Headers" "content-type" ;;
  let sessionId := searchParams_get u "sessionId" in
  if falsy sessionId then
    writeHead res 400 [] ;;
    end_ res "Missing sessionId query parameter"
  else
    session <- sessions_get (default EmptyString sessionId) ;;
    match session with
    | None =>
        writeHead res 404 [] ;;
        end_ res "Unknown session"
    | Some record =>
        try_catch
          (transport_handlePostMessage (transport record) (sdk_handlePostMessage sdk) res)
          (fun error =>
             console_error "Failed to process message" (err_message error) ;;
             r <- read_res res ;;
             if negb (headersSent r) then
               writeHead res 500 [] ;;
               end_ res "Failed to process message"
             else ret tt)
    end.

(** The routing of the request listener given to [createServer]
    (server.ts:468-471 and 475-502), on a request whose URL has parsed;
    [listener] below puts the parse of line 473 in front of it. *)
Definition requestListener (sdk : Sdk) (req : IncomingMessage) (res : handle) : M unit :=
  match url req with
  | None =>
      writeHead res 400 [] ;;
      end_ res "Missing URL"
  | Some u =>
      if String.eqb (method req) "OPTIONS" &&
         (String.eqb (pathname u) ssePath || String.eqb (pathname u) postPath)
      then
        writeHead res 204
          [("Access-Control-Allow-Origin", "*");
           ("Access-Control-Allow-Methods", "GET, POST, OPTIONS");
           ("Access-Control-Allow-Headers", "content-type")] ;;
        end_ res EmptyString
      else if String.eqb (method req) "GET" && String.eqb (pathname u) ssePath then
        handleSseRequest sdk res
      else if String.eqb (method req) "POST" && String.eqb (pathname u) postPath then
        handlePostMessage sdk res u
      else
        writeHead res 404 [] ;;
        end_ res "Not Found"
  end.

(** ** Callbacks fired by the transport *)

(** Body of the closure stored in [transport.onclose]. *)
Definition run_onclose (cb : CloseCallback) : M unit :=
  match cb with
  | OnClose sessionId =>
      sessions_delete sessionId ;; ret tt
  | OnCloseAndServerClose sessionId server =>
      sessions_delete sessionId ;; server_close server
  end.

(** Body of the closure stored in [transport.onerror]. *)
Definition run_onerror (cb : ErrorCallback) (error : string) : M unit :=
  match cb with
  | OnErrorLog => console_error "SSE transport error" error
  end.

(** [transport.onclose?.()]. *)
Definition fire_close (t : handle) : M unit :=
  tr <- read_transport t ;;
  match onclose tr with
  | Some cb => run_onclose cb
  | None => ret tt
  end.

(** [transport.onerror?.(error)]. *)
Definition fire_error (t : handle) (error : string) : M unit :=
  tr <- read_transport t ;;
  match onerror tr with
  | Some cb => run_onerror cb error
  | None => ret tt
  end.

(** What can happen to the running server. *)
Inductive Event : Type :=
| Request (req : IncomingMessage) (sdk : Sdk)
| TransportClose (t : handle)
| TransportError (t : handle) (error : string).

(** A request arrives with a response object of its own. *)
Definition on_request (sdk : Sdk) (req : IncomingMessage) : M handle :=
  res <- new_ServerResponse ;;
  requestListener sdk req res ;;
  ret res.

Definition step (ev : Event) : M unit :=
  match ev with
  | Request req sdk => on_request sdk req ;; ret tt
  | TransportClose t => fire_close t
  | TransportError t error => fire_error t error
  end.

Definition run (evs : list Event) (w : World) : World :=
  fold_left (fun w ev => snd (step ev w)) evs w.

End Server.

(** The world at start-up: empty stores over a given disk. *)
Definition initialWorld (fs : FileSystem) : World := mkWorld fs ∅ ∅ ∅ ∅ [].

(** Number of times [sessions.delete(id)] ran. *)
Definition is_delete_of (id : string) (e : Effect) : bool :=
  match e with
  | SessionsDelete id' => String.eqb id id'
  | _ => false
  end.

Definition deletions (id : string) (w : World) : nat :=
  length (List.filter (is_delete_of id) (trace w)).

(** ** Example inputs *)

Definition exampleAssetsDir : string := "/app/web/dist".

Definition builtDisk : FileSystem :=
  <[exampleAssetsDir := FsDir]>
    (<[join_plain exampleAssetsDir "todo.js" := FsFile "render()"]> ∅).

Definition connected : SdkOutcome := mkOutcome (mkRes [] 200 true EmptyString false) None.
Definition accepted : SdkOutcome := mkOutcome (mkRes [] 202 true "Accepted" true) None.
Definition connectRefused : SdkOutcome :=
  mkOutcome freshResponse (Some (mkError "SSEServerTransport already started")).

Definition exampleSdk (id : string) : Sdk := mkSdk id connected accepted.

Definition getStream : IncomingMessage := mkReq "GET" (Some (mkURL ssePath [])).

Definition postTo (query : list (string * string)) : IncomingMessage :=
  mkReq "POST" (Some (mkURL postPath query)).

(** A disk on which the widgets were never built. *)
Definition emptyDisk : FileSystem := ∅.

(** An SDK whose connect call throws before any header is written. *)
Definition refusingSdk : Sdk := mkSdk "S1" connectRefused accepted.

(** The start-up world with one response object waiting to be answered. *)
Definition awaiting : World := snd (new_ServerResponse (initialWorld builtDisk)).

(** The world after one client opened a stream and was given id S1. *)
Definition oneSession : World :=
  run exampleAssetsDir join_plain [Request getStream (exampleSdk "S1")] (initialWorld builtDisk).

(** ** The session table as an interface *)

(** [put], [get] and [remove] of the Stream Session Table are the three
    operations of the session map. *)
Inductive TableOp : Type :=
| TablePut (id : string) (record : SessionRecord)
| TableGet (id : string)
| TableRemove (id : string).

Definition table_op (op : TableOp) : M unit :=
  match op with
  | TablePut id record => sessions_set id record
  | TableGet id => sessions_get id ;; ret tt
  | TableRemove id => sessions_delete id ;; ret tt
  end.

Definition table_ops (ops : list TableOp) (w : World) : World :=
  fold_left (fun w op => snd (table_op op w)) ops w.

(** A put or a remove under [id]. *)
Definition writes_to (id : string) (op : TableOp) : bool :=
  match op with
  | TablePut id' _ => String.eqb id id'
  | TableRemove id' => String.eqb id id'
  | TableGet _ => false
  end.




(** The session id a close callback captured. *)
Definition captured (cb : CloseCallback) : string :=
  match cb with
  | OnClose id => id
  | OnCloseAndServerClose id _ => id
  end.

(** Status code of the response a request was answered with. *)
Definition responseStatus (out : Completion handle * World) : option nat :=
  match out with
  | (Normal res, w') => statusCode <$> responses w' !! res
  | (Throw _, _) => None
  end.

(** ** Outcomes and invariants named in the properties *)

(** What the two [setHeader] calls opening [handlePostMessage] leave. *)
Definition corsPost (r : ServerResponse) : ServerResponse :=
  mkRes (("Access-Control-Allow-Headers", "content-type") ::
         ("Access-Control-Allow-Origin", "*") :: res_headers r)
    (statusCode r) false (res_body r) (writableEnded r).

(** The early exits of [handlePostMessage]: a status and a short body. *)
Definition rejected (code : nat) (reason : string) (r : ServerResponse) : ServerResponse :=
  mkRes (res_headers (corsPost r)) code true (res_body r +:+ reason) true.

(** A POST to the message path that [handlePostMessage] turns away with
    [code] and [reason]: the response is new, carries exactly that, and
    nothing else in the world moved. *)
Definition turned_away (w : World) (out : Completion handle * World)
  (code : nat) (reason : string) : Prop :=
  exists res w',
    out = (Normal res, w') /\
    responses w !! res = None /\
    responses w' !! res =
      Some (mkRes [("Access-Control-Allow-Headers", "content-type");
                   ("Access-Control-Allow-Origin", "*")] code true reason true) /\
    sessions w' = sessions w /\ servers w' = servers w /\
    transports w' = transports w /\ trace w' = trace w /\ disk w' = disk w.

(** What the [setHeader] call opening [handleSseRequest] leaves. *)
Definition corsGet (r : ServerResponse) : ServerResponse :=
  mkRes (("Access-Control-Allow-Origin", "*") :: res_headers r) (statusCode r) false
    (res_body r) (writableEnded r).

(** The server object [createServerInstance] leaves at the new address. *)
Definition builtServer (todoAssets : WidgetAssets) : McpServer :=
  mkServer "mcp-app-server" "1.0.0" (knownResources todoAssets) knownTools.

(** The same for the factory of the earlier revision. *)
Definition builtServer_part000 (todoAssets : WidgetAssets) : McpServer :=
  mkServer "mcp-app-server" "1.0.0" (knownResources todoAssets) knownTools_part000.

(** The world a stream-open leaves when the connect call returns: a server
    at a new address, a transport at a new address carrying both
    callbacks, and the session entered under the transport's id. *)
Definition opened (id : string) (res : handle) (r : ServerResponse) (s : McpServer)
  (cb : handle -> CloseCallback) (w : World) : World :=
  let h := fresh (dom (servers w)) in
  let t := fresh (dom (transports w)) in
  mkWorld (disk w)
    (<[h := s]> (servers w))
    (<[t := mkTransport postPath res id (Some (cb h)) (Some OnErrorLog)]> (transports w))
    (<[res := r]> (responses w))
    (<[id := mkSession h t]> (sessions w))
    (trace w).

(** [if (!res.headersSent) res.writeHead(500).end(...)] on the response as
    the failed connect left it. *)
Definition answered500 (r : ServerResponse) : ServerResponse :=
  if headersSent r then r
  else if writableEnded r then mkRes (res_headers r) 500 true (res_body r) true
  else mkRes (res_headers r) 500 true
         (res_body r +:+ "Failed to establish SSE connection") true.

(** The world a stream-open leaves when the connect call throws. *)
Definition refused (id : string) (res : handle) (r : ServerResponse) (s : McpServer)
  (cb : handle -> CloseCallback) (e : JsError) (w : World) : World :=
  let o := opened id res r s cb w in
  mkWorld (disk o) (servers o) (transports o)
    (<[res := answered500 r]> (responses w))
    (delete id (sessions w))
    (ConsoleError "Failed to start SSE session" (err_message e) ::
     SessionsDelete id :: trace w).

(** What a refused stream-open leaves behind. *)
Definition undone (id : string) (res : handle) (left : ServerResponse) (w w' : World) : Prop :=
  sessions w' !! id = None /\
  sessions w' = delete id (sessions w) /\
  (sessions w !! id = None -> sessions w' = sessions w) /\
  deletions id w' = S (deletions id w) /\
  (headersSent left = false ->
   exists r',
     responses w' !! res = Some r' /\
     statusCode r' = 500 /\ headersSent r' = true /\ writableEnded r' = true /\
     (writableEnded left = false ->
      res_body r' = res_body left +:+ "Failed to establish SSE connection")) /\
  (headersSent left = true -> responses w' !! res = Some left).

(** Both revisions of [handleSseRequest] are this computation, for their
    own factory and their own close callback. *)
Definition stream_open (create : M handle) (cb : handle -> CloseCallback) (sdk : Sdk)
  (res : handle) : M unit :=
  setHeader res "Access-Control-Allow-Origin" "*" ;;
  server <- create ;;
  transport <- new_SSEServerTransport postPath res (sdk_sessionId sdk) ;;
  sessions_set (sdk_sessionId sdk) (mkSession server transport) ;;
  set_onclose transport (cb server) ;;
  set_onerror transport OnErrorLog ;;
  try_catch (await_sdk (sdk_connect sdk) res) (sse_connect_failed (sdk_sessionId sdk) res).

(** A computation that leaves servers, transports, sessions and disk as
    they are (it may answer a response or write to the console). *)
Definition quiet {A : Type} (m : M A) : Prop :=
  forall w,
    servers (snd (m w)) = servers w /\ transports (snd (m w)) = transports w /\
    sessions (snd (m w)) = sessions w /\ disk (snd (m w)) = disk w.

(** Every session's server is an allocated server object. *)
Definition wf (w : World) : Prop :=
  forall id record, sessions w !! id = Some record -> is_Some (servers w !! server record).

(** From [w] to [w']: server objects are only added, the disk is the same,
    and a well-formed session map stays so. *)
Definition grows (w w' : World) : Prop :=
  servers w ⊆ servers w' /\ disk w' = disk w /\ (wf w -> wf w').

(** Among the sessions of [w], exactly the one under [id] holds server
    [h]. *)
Definition bound_only_to (h : handle) (id : string) (w : World) : Prop :=
  forall id' record, sessions w !! id' = Some record -> (server record = h <-> id' = id).

(** ** Routes and answers named in the further properties *)

(** The three tests of the request listener, in its order
    (server.ts:476-479, 490, 496). *)
Definition isPreflight (req : IncomingMessage) (u : URL) : bool :=
  String.eqb (method req) "OPTIONS" &&
  (String.eqb (pathname u) ssePath || String.eqb (pathname u) postPath).

Definition isStreamOpen (req : IncomingMessage) (u : URL) : bool :=
  String.eqb (method req) "GET" && String.eqb (pathname u) ssePath.

Definition isMessagePost (req : IncomingMessage) (u : URL) : bool :=
  String.eqb (method req) "POST" && String.eqb (pathname u) postPath.

(** A request answered at once: its response is new and is exactly [r'],
    and nothing else in the world moved. *)
Definition answered (w : World) (out : Completion handle * World) (r' : ServerResponse)
  : Prop :=
  exists res w',
    out = (Normal res, w') /\
    responses w !! res = None /\
    responses w' !! res = Some r' /\
    sessions w' = sessions w /\ servers w' = servers w /\
    transports w' = transports w /\ trace w' = trace w /\ disk w' = disk w.

(** [if (!res.headersSent) res.writeHead(500).end(reason)] on a response
    as a failed SDK call left it. *)
Definition answeredFailure (reason : string) (r : ServerResponse) : ServerResponse :=
  if headersSent r then r
  else if writableEnded r then mkRes (res_headers r) 500 true (res_body r) true
  else mkRes (res_headers r) 500 true (res_body r +:+ reason) true.

(** The world [handlePostMessage] leaves for a session whose transport
    is the object at [t]. *)
Definition forwarded (t : handle) (o : SdkOutcome) (res : handle) (w : World) : World :=
  match sdk_error o with
  | None => emit (HandlePostMessage t) (with_responses (insert res (sdk_res o)) w)
  | Some e =>
      mkWorld (disk w) (servers w) (transports w)
        (<[res := answeredFailure "Failed to process message" (sdk_res o)]> (responses w))
        (sessions w)
        (ConsoleError "Failed to process message" (err_message e) ::
         HandlePostMessage t :: trace w)
  end.

(** The three ways an event can move the session table: not at all, by
    removing one id, or by a stream-open that connected. *)
Inductive transition (w w' : World) : Prop :=
| SameSessions :
    sessions w' = sessions w -> transports w ⊆ transports w' ->
    servers w ⊆ servers w' -> disk w' = disk w -> transition w w'
| RemovedSession (id : string) :
    sessions w' = delete id (sessions w) -> transports w ⊆ transports w' ->
    servers w ⊆ servers w' -> disk w' = disk w -> transition w w'
| OpenedSession (id : string) (res : handle) (r : ServerResponse) (s : McpServer)
    (w0 : World) :
    sessions w0 = sessions w -> transports w0 = transports w ->
    servers w0 = servers w -> disk w0 = disk w ->
    w' = opened id res r s (fun _ => OnClose id) w0 -> transition w w'.

(** Every session's transport is an allocated transport that carries the
    session's id and the two callbacks of [handleSseRequest]. *)
Definition linked (w : World) : Prop :=
  forall id record,
    sessions w !! id = Some record ->
    exists tr,
      transports w !! transport record = Some tr /\
      sessionId tr = id /\ onclose tr = Some (OnClose id) /\ onerror tr = Some OnErrorLog.

(** A todo as a client sends it to save-todo-state: absent optional
    fields are left out of the object. *)
Definition optional_field (k : string) (v : option string) : list (string * JValue) :=
  match v with
  | Some s => [(k, JStr s)]
  | None => []
  end.

Definition saved_todo_json (t : SavedTodo) : JValue :=
  JObj ([("id", JStr (saved_id t));
         ("title", JStr (saved_title t));
         ("isComplete", JBool (saved_isComplete t))] ++
        optional_field "note" (saved_note t) ++
        optional_field "dueDate" (saved_dueDate t)).

(** ** The base URL of the build scripts *)

Definition slash : Ascii.ascii := Ascii.ascii_of_nat 47.
Definition blank : Ascii.ascii := Ascii.ascii_of_nat 32.

(** [s.replace(/\/+$/, "")]: the string without its trailing slashes. *)
Fixpoint stripTrailingSlashes (s : string) : string :=
  match s with
  | EmptyString => EmptyString
  | String c rest =>
      match stripTrailingSlashes rest with
      | EmptyString => if Ascii.eqb c slash then EmptyString else String c EmptyString
      | kept => String c kept
      end
  end.

(** [s.endsWith("/")]. *)
Fixpoint endsWithSlash (s : string) : bool :=
  match s with
  | EmptyString => false
  | String c EmptyString => Ascii.eqb c slash
  | String _ rest => endsWithSlash rest
  end.

Definition defaultBaseUrl : string := "http://localhost:8000".

Section BaseUrl.
(** [String.prototype.trim]. *)
Variable trim : string -> string.

(** build.mts:150-153. *)
Definition normalizedBaseUrl (BASE_URL : option string) : string :=
  let baseUrlCandidate :=
    match BASE_URL with
    | Some s => trim s
    | None => EmptyString
    end in
  let baseUrlRaw :=
    if Nat.ltb 0 (String.length baseUrlCandidate) then baseUrlCandidate else defaultBaseUrl in
  match stripTrailingSlashes baseUrlRaw with
  | EmptyString => defaultBaseUrl
  | stripped => stripped
  end.

(** The earlier build script (src/unnamed/part_001:103-104):
    [process.env.BASE_URL?.trim() || "http://localhost:8000"], then the
    same replace, with no fallback after it. *)
Definition baseUrl_part001 (BASE_URL : option string) : string :=
  let defaultBaseUrl :=
    match BASE_URL with
    | Some s => if String.eqb (trim s) EmptyString then defaultBaseUrl else trim s
    | None => defaultBaseUrl
    end in
  stripTrailingSlashes defaultBaseUrl.
End BaseUrl.

(** A trim used to run the definitions on examples: blanks and tabs at
    both ends. *)
Fixpoint trimStart (s : string) : string :=
  match s with
  | String c rest =>
      if Ascii.eqb c blank || Ascii.eqb c (Ascii.ascii_of_nat 9) then trimStart rest else s
  | EmptyString => EmptyString
  end.

Fixpoint trimEnd (s : string) : string :=
  match s with
  | EmptyString => EmptyString
  | String c rest =>
      match trimEnd rest with
      | EmptyString =>
          if Ascii.eqb c blank || Ascii.eqb c (Ascii.ascii_of_nat 9) then EmptyString
          else String c EmptyString
      | kept => String c kept
      end
  end.

Definition trimBlanks (s : string) : string := trimEnd (trimStart s).

(** Requests that the listener hands to [handleSseRequest]. *)
Definition opensStream (ev : Event) : bool :=
  match ev with
  | Request req _ =>
      match url req with
      | Some u => negb (isPreflight req u) && isStreamOpen req u
      | None => false
      end
  | _ => false
  end.

Definition streamOpens (evs : list Event) : nat := length (List.filter opensStream evs).

(** [shown] is what [given || d] shows: never the empty string, the
    default when the value is absent or empty, and the value otherwise. *)
Definition defaulted (given : option string) (d shown : string) : Prop :=
  shown <> EmptyString /\
  (given = None \/ given = Some EmptyString -> shown = d) /\
  (forall s, given = Some s -> s <> EmptyString -> shown = s).

(** ** The listener on the request as it arrives *)

(** What the listener reads of an [IncomingMessage] before anything is
    parsed: the method, [req.url] and the Host header. *)
Record RawRequest := mkRaw {
  raw_method : string;
  raw_url : option string;
  raw_host : option string
}.

(** [`http://${req.headers.host ?? "localhost"}`]. *)
Definition baseOf (req : RawRequest) : string :=
  "http://" +:+ default "localhost" (raw_host req).

Section Listener.
Variable dir : string.
Variable join : string -> string -> string.
(** [new URL(input, base)] is Node's: it returns the parsed URL or throws
    a TypeError. *)
Variable newURL : string -> string -> Completion URL.

(** server.ts:466-503 with the parse of line 473 in its place, outside any
    try block; [requestListener] is the rest, on the parsed URL. *)
Definition listener (sdk : Sdk) (req : RawRequest) (res : handle) : M unit :=
  if falsy (raw_url req) then
    writeHead res 400 [] ;;
    end_ res "Missing URL"
  else
    u <- liftC (newURL (default EmptyString (raw_url req)) (baseOf req)) ;;
    requestListener dir join sdk (mkReq (raw_method req) (Some u)) res.

Definition on_raw_request (sdk : Sdk) (req : RawRequest) : M handle :=
  res <- new_ServerResponse ;;
  listener sdk req res ;;
  ret res.
End Listener.

(** A parser used to run the listener on examples: it refuses targets
    that start with two slashes and reads every other target as a path
    without a query. *)
Definition exampleNewURL (input base : string) : Completion URL :=
  if String.prefix "//" input then Throw (mkError "TypeError: Invalid URL")
  else Normal (mkURL input []).

(** A transport handler that answers 202 and keeps the headers set
    before it. *)
Definition acceptedPost : SdkOutcome :=
  mkOutcome
    (mkRes [("Access-Control-Allow-Headers", "content-type");
            ("Access-Control-Allow-Origin", "*")] 202 true "Accepted" true)
    None.

Definition postingSdk : Sdk := mkSdk "S2" connected acceptedPost.

(** * Properties *)

(** ** Stepping through computations *)

Lemma bind_normal {A B : Type} (m : M A) (k : A -> M B) (w w' : World) (a : A) :
  m w = (Normal a, w') -> bind m k w = k a w'.
Proof. intros H. unfold bind. now rewrite H. Qed.

Lemma bind_throw {A B : Type} (m : M A) (k : A -> M B) (w w' : World) (e : JsError) :
  m w = (Throw e, w') -> bind m k w = (Throw e, w').
Proof. intros H. unfold bind. now rewrite H. Qed.

Lemma setHeader_ok (res : handle) (name value : string) (w : World) (r : ServerResponse) :
  responses w !! res = Some r -> headersSent r = false ->
  setHeader res name value w =
    (Normal tt,
     with_responses (insert res
       (mkRes ((name, value) :: res_headers r) (statusCode r) false (res_body r)
          (writableEnded r))) w).
Proof.
  intros Hr Hs. unfold setHeader, bind, read_res. rewrite Hr, Hs. reflexivity.
Qed.

Lemma writeHead_ok (res : handle) (code : nat) (hs : list (string * string))
  (w : World) (r : ServerResponse) :
  responses w !! res = Some r -> headersSent r = false ->
  writeHead res code hs w =
    (Normal tt,
     with_responses (insert res
       (mkRes (hs ++ res_headers r) code true (res_body r) (writableEnded r))) w).
Proof.
  intros Hr Hs. unfold writeHead, bind, read_res. rewrite Hr, Hs. reflexivity.
Qed.

Lemma end_ok (res : handle) (data : string) (w : World) (r : ServerResponse) :
  responses w !! res = Some r -> writableEnded r = false ->
  end_ res data w =
    (Normal tt,
     with_responses (insert res
       (mkRes (res_headers r) (statusCode r) true (res_body r +:+ data) true)) w).
Proof.
  intros Hr He. unfold end_, bind, read_res. rewrite Hr, He. reflexivity.
Qed.

(** [res.writeHead(code).end(data)] on a response whose headers are not
    yet sent. *)
Lemma writeHead_end (res : handle) (code : nat) (data : string) (w : World)
  (r : ServerResponse) :
  responses w !! res = Some r -> headersSent r = false -> writableEnded r = false ->
  bind (writeHead res code []) (fun _ => end_ res data) w =
    (Normal tt,
     with_responses (insert res
       (mkRes (res_headers r) code true (res_body r +:+ data) true)) w).
Proof.
  intros Hr Hs He.
  rewrite (bind_normal _ _ _ _ _ (writeHead_ok res code [] w r Hr Hs)).
  erewrite end_ok; [| cbn; apply lookup_insert_eq | exact He].
  unfold with_responses; cbn. now rewrite insert_insert_eq.
Qed.

Lemma handlePostMessage_missing (sdk : Sdk) (res : handle) (u : URL) (w : World)
  (r : ServerResponse) :
  responses w !! res = Some r -> headersSent r = false -> writableEnded r = false ->
  falsy (searchParams_get u "sessionId") = true ->
  handlePostMessage sdk res u w =
    (Normal tt,
     with_responses (insert res (rejected 400 "Missing sessionId query parameter" r)) w).
Proof.
  intros Hr Hs He Hf. unfold handlePostMessage.
  rewrite (bind_normal _ _ _ _ _ (setHeader_ok res _ _ w r Hr Hs)).
  erewrite bind_normal; [| apply setHeader_ok; [cbn; apply lookup_insert_eq | reflexivity]].
  rewrite Hf.
  erewrite writeHead_end; [| cbn; apply lookup_insert_eq | reflexivity | exact He].
  unfold with_responses, rejected, corsPost; cbn. now rewrite !insert_insert_eq.
Qed.

Lemma handlePostMessage_unknown (sdk : Sdk) (res : handle) (u : URL) (w : World)
  (r : ServerResponse) (id : string) :
  responses w !! res = Some r -> headersSent r = false -> writableEnded r = false ->
  searchParams_get u "sessionId" = Some id -> id <> EmptyString ->
  sessions w !! id = None ->
  handlePostMessage sdk res u w =
    (Normal tt, with_responses (insert res (rejected 404 "Unknown session" r)) w).
Proof.
  intros Hr Hs He Hid Hne Hnone. unfold handlePostMessage.
  rewrite (bind_normal _ _ _ _ _ (setHeader_ok res _ _ w r Hr Hs)).
  erewrite bind_normal; [| apply setHeader_ok; [cbn; apply lookup_insert_eq | reflexivity]].
  rewrite Hid. cbn [falsy].
  destruct (String.eqb_spec id EmptyString) as [->|_]; [congruence|].
  erewrite (bind_normal (sessions_get _)); [| unfold sessions_get, gets; cbn; rewrite Hnone; reflexivity].
  cbv beta iota.
  erewrite writeHead_end; [| cbn; apply lookup_insert_eq | reflexivity | exact He].
  unfold with_responses, rejected, corsPost; cbn. now rewrite !insert_insert_eq.
Qed.

Lemma new_ServerResponse_eq (w : World) :
  new_ServerResponse w =
    (Normal (fresh (dom (responses w))),
     with_responses (insert (fresh (dom (responses w))) freshResponse) w).
Proof. reflexivity. Qed.

Lemma fresh_response_unused (w : World) : responses w !! fresh (dom (responses w)) = None.
Proof. apply not_elem_of_dom, is_fresh. Qed.

Section RouterProperties.
Variable dir : string.
Variable join : string -> string -> string.

Lemma requestListener_post (sdk : Sdk) (req : IncomingMessage) (u : URL) (res : handle) :
  method req = "POST" -> url req = Some u -> pathname u = postPath ->
  requestListener dir join sdk req res = handlePostMessage sdk res u.
Proof.
  intros Hm Hu Hp. unfold requestListener. rewrite Hu, Hm, Hp. reflexivity.
Qed.

Lemma on_request_turned_away (sdk : Sdk) (req : IncomingMessage) (u : URL) (w : World)
  (code : nat) (reason : string) :
  method req = "POST" -> url req = Some u -> pathname u = postPath ->
  (forall res w0 r,
     responses w0 !! res = Some r -> headersSent r = false -> writableEnded r = false ->
     sessions w0 = sessions w ->
     handlePostMessage sdk res u w0 =
       (Normal tt, with_responses (insert res (rejected code reason r)) w0)) ->
  turned_away w (on_request dir join sdk req w) code reason.
Proof.
  intros Hm Hu Hp Hpost.
  exists (fresh (dom (responses w))).
  eexists. split.
  - unfold on_request.
    rewrite (bind_normal _ _ _ _ _ (new_ServerResponse_eq w)).
    rewrite (requestListener_post sdk req u _ Hm Hu Hp).
    erewrite bind_normal;
      [| apply Hpost with (r := freshResponse);
         [cbn; apply lookup_insert_eq | reflexivity | reflexivity | reflexivity]].
    reflexivity.
  - split; [apply fresh_response_unused |].
    cbn. rewrite lookup_insert_eq. repeat split; reflexivity.
Qed.

(** C2 — a POST to the message path without a sessionId query parameter
    is answered with status 400 and the body "Missing sessionId query
    parameter"; the session map, the servers, the transports and the
    effect trace are left as they were. *)
Theorem post_without_sessionId_is_400 (sdk : Sdk) (req : IncomingMessage) (u : URL)
  (w : World) :
  method req = "POST" -> url req = Some u -> pathname u = postPath ->
  searchParams_get u "sessionId" = None ->
  turned_away w (on_request dir join sdk req w) 400 "Missing sessionId query parameter".
Proof.
  intros Hm Hu Hp Hnone.
  apply (on_request_turned_away sdk req u w _ _ Hm Hu Hp).
  intros res w0 r Hr Hs He _.
  apply handlePostMessage_missing; try assumption. now rewrite Hnone.
Qed.

(** C3, amended — a POST to the message path whose sessionId is not empty
    and matches no entry of the session map is answered with status 404 and
    the body "Unknown session"; one whose sessionId is present but empty
    is answered with status 400 and the body "Missing sessionId query
    parameter", like one without the parameter.  In both cases the handler
    completes normally and the session map, the servers, the transports
    and the trace are left as they were. *)
Theorem post_unknown_sessionId_is_404 (sdk : Sdk) (req : IncomingMessage) (u : URL)
  (w : World) (id : string) :
  method req = "POST" -> url req = Some u -> pathname u = postPath ->
  searchParams_get u "sessionId" = Some id ->
  (id <> EmptyString -> sessions w !! id = None ->
   turned_away w (on_request dir join sdk req w) 404 "Unknown session") /\
  (id = EmptyString ->
   turned_away w (on_request dir join sdk req w) 400 "Missing sessionId query parameter").
Proof.
  intros Hm Hu Hp Hid. split.
  - intros Hne Hnone.
    apply (on_request_turned_away sdk req u w _ _ Hm Hu Hp).
    intros res w0 r Hr Hs He Hsame.
    apply handlePostMessage_unknown with (id := id); try assumption.
    now rewrite Hsame.
  - intros ->.
    apply (on_request_turned_away sdk req u w _ _ Hm Hu Hp).
    intros res w0 r Hr Hs He _.
    apply handlePostMessage_missing; try assumption. now rewrite Hid.
Qed.

End RouterProperties.

Lemma post_without_sessionId_is_400_witness :
  turned_away oneSession
    (on_request exampleAssetsDir join_plain (exampleSdk "S2") (postTo []) oneSession)
    400 "Missing sessionId query parameter".
Proof.
  apply (post_without_sessionId_is_400 exampleAssetsDir join_plain
           (exampleSdk "S2") (postTo []) (mkURL postPath []) oneSession);
    reflexivity.
Defined.

Lemma post_unknown_sessionId_is_404_witness :
  turned_away oneSession
    (on_request exampleAssetsDir join_plain (exampleSdk "S2")
       (postTo [("sessionId", "unknown-id")]) oneSession)
    404 "Unknown session" /\
  turned_away oneSession
    (on_request exampleAssetsDir join_plain (exampleSdk "S2")
       (postTo [("sessionId", EmptyString)]) oneSession)
    400 "Missing sessionId query parameter".
Proof.
  split.
  - apply (proj1 (post_unknown_sessionId_is_404 exampleAssetsDir join_plain
                    (exampleSdk "S2") (postTo [("sessionId", "unknown-id")])
                    (mkURL postPath [("sessionId", "unknown-id")]) oneSession "unknown-id"
                    eq_refl eq_refl eq_refl eq_refl)).
    + discriminate.
    + vm_compute. reflexivity.
  - apply (proj2 (post_unknown_sessionId_is_404 exampleAssetsDir join_plain
                    (exampleSdk "S2") (postTo [("sessionId", EmptyString)])
                    (mkURL postPath [("sessionId", EmptyString)]) oneSession EmptyString
                    eq_refl eq_refl eq_refl eq_refl)).
    reflexivity.
Defined.

(** C3, as stated, fails: a sessionId parameter that is present but empty
    matches no entry, and the answer is 400, not 404. *)
Lemma post_empty_sessionId_is_not_404 :
  searchParams_get (mkURL postPath [("sessionId", EmptyString)]) "sessionId" = Some EmptyString /\
  sessions oneSession !! EmptyString = None /\
  responseStatus
    (on_request exampleAssetsDir join_plain (exampleSdk "S2")
       (postTo [("sessionId", EmptyString)]) oneSession) = Some 400 /\
  responseStatus
    (on_request exampleAssetsDir join_plain (exampleSdk "S2")
       (postTo [("sessionId", EmptyString)]) oneSession) <> Some 404.
Proof.
  split; [reflexivity |]. split; [vm_compute; reflexivity |].
  assert (H : responseStatus
    (on_request exampleAssetsDir join_plain (exampleSdk "S2")
       (postTo [("sessionId", EmptyString)]) oneSession) = Some 400)
    by (vm_compute; reflexivity).
  split; [exact H |]. rewrite H. discriminate.
Qed.

(** ** The session table *)

Lemma sessions_set_eq (id : string) (s : SessionRecord) (w : World) :
  sessions_set id s w = (Normal tt, with_sessions (insert id s) w).
Proof. reflexivity. Qed.

Lemma sessions_get_eq (id : string) (w : World) :
  sessions_get id w = (Normal (sessions w !! id), w).
Proof. reflexivity. Qed.

Lemma sessions_delete_eq (id : string) (w : World) :
  sessions_delete id w =
    (Normal (bool_decide (is_Some (sessions w !! id))),
     emit (SessionsDelete id) (with_sessions (delete id) w)).
Proof. reflexivity. Qed.

(** An operation that is not a put or a remove under [id] leaves the entry
    under [id] alone. *)
Lemma table_op_other (id : string) (op : TableOp) (w : World) :
  writes_to id op = false ->
  sessions (snd (table_op op w)) !! id = sessions w !! id.
Proof.
  destruct op as [id' record | id' | id']; cbn; intros Hop.
  - apply lookup_insert_ne. intros ->. now rewrite String.eqb_refl in Hop.
  - reflexivity.
  - apply lookup_delete_ne. intros ->. now rewrite String.eqb_refl in Hop.
Qed.

Lemma table_ops_other (id : string) (ops : list TableOp) (w : World) :
  forallb (fun op => negb (writes_to id op)) ops = true ->
  sessions (table_ops ops w) !! id = sessions w !! id.
Proof.
  revert w. induction ops as [| op ops IH]; intros w Hops; [reflexivity |].
  cbn in Hops. apply andb_true_iff in Hops as [Hop Hrest].
  apply negb_true_iff in Hop.
  change (table_ops (op :: ops) w) with (table_ops ops (snd (table_op op w))).
  rewrite (IH _ Hrest). now apply table_op_other.
Qed.

(** C4 — after put(id, s), get(id) answers s across any operations that
    neither remove id nor put under id again; a put never fails, whatever
    the table holds, and a later put under the same id replaces the
    entry. *)
Theorem put_then_get (id : string) (s : SessionRecord) (w : World) (ops : list TableOp) :
  forallb (fun op => negb (writes_to id op)) ops = true ->
  let after := table_ops ops (snd (sessions_set id s w)) in
  fst (sessions_set id s w) = Normal tt /\
  sessions_get id after = (Normal (Some s), after) /\
  (forall s', fst (sessions_get id (snd (sessions_set id s' after))) = Normal (Some s')) /\
  fst (sessions_get id (snd (sessions_delete id after))) = Normal None.
Proof.
  intros Hops after. split; [reflexivity |]. split; [| split].
  - rewrite sessions_get_eq. unfold after.
    rewrite (table_ops_other id ops _ Hops). cbn. now rewrite lookup_insert_eq.
  - intros s'. cbn. now rewrite lookup_insert_eq.
  - cbn. now rewrite lookup_delete_eq.
Qed.

Lemma put_then_get_witness :
  let after :=
    table_ops [TablePut "S2" (mkSession 7 7); TableRemove "S3"; TableGet "S1"]
      (snd (sessions_set "S1" (mkSession 5 5) oneSession)) in
  sessions_get "S1" after = (Normal (Some (mkSession 5 5)), after).
Proof.
  intros after.
  apply (put_then_get "S1" (mkSession 5 5) oneSession
           [TablePut "S2" (mkSession 7 7); TableRemove "S3"; TableGet "S1"]).
  reflexivity.
Defined.

(** C5 — remove(id) of an absent id completes normally, answers false and
    leaves the session map as it is; a second remove(id) right after a
    first does the same. *)
Theorem remove_idempotent (id : string) (w : World) :
  (sessions w !! id = None ->
   fst (sessions_delete id w) = Normal false /\
   sessions (snd (sessions_delete id w)) = sessions w) /\
  (let once := snd (sessions_delete id w) in
   fst (sessions_delete id once) = Normal false /\
   sessions (snd (sessions_delete id once)) = sessions once).
Proof.
  split.
  - intros Hnone. rewrite sessions_delete_eq. cbn. split.
    + rewrite Hnone. reflexivity.
    + now apply delete_id.
  - cbn. rewrite lookup_delete_eq. split; [reflexivity |].
    apply delete_id, lookup_delete_eq.
Qed.

Lemma remove_idempotent_witness :
  fst (sessions_delete "S9" oneSession) = Normal false /\
  sessions (snd (sessions_delete "S9" oneSession)) = sessions oneSession.
Proof.
  apply (proj1 (remove_idempotent "S9" oneSession)). vm_compute. reflexivity.
Defined.

(** ** The port *)

(** C9 — the port is 8000 when PORT is unset or converts to a number that
    is not finite, and the converted number otherwise. *)
Theorem port_from_environment (StringToNumber : string -> JsNumber) (PORT : option string) :
  ((PORT = None \/ exists s, PORT = Some s /\ isFinite (StringToNumber s) = false) ->
   port StringToNumber PORT = NFinite 8000) /\
  (forall s, PORT = Some s -> isFinite (StringToNumber s) = true ->
   port StringToNumber PORT = StringToNumber s).
Proof.
  split.
  - intros [-> | (s & -> & Hs)]; [reflexivity |].
    unfold port, portEnv. cbn. now rewrite Hs.
  - intros s -> Hs. unfold port, portEnv. cbn. now rewrite Hs.
Qed.

Lemma port_from_environment_witness :
  port decimalToNumber None = NFinite 8000 /\
  port decimalToNumber (Some "eighty") = NFinite 8000 /\
  port decimalToNumber (Some "3000") = NFinite 3000.
Proof.
  split; [| split].
  - apply (proj1 (port_from_environment decimalToNumber None)). left. reflexivity.
  - apply (proj1 (port_from_environment decimalToNumber (Some "eighty"))).
    right. exists "eighty". split; reflexivity.
  - apply (proj2 (port_from_environment decimalToNumber (Some "3000")) "3000");
      reflexivity.
Defined.

(** ** Widget assets *)

Lemma prefix_append (t rest : string) : String.prefix t (t +:+ rest) = true.
Proof.
  induction t as [| c t IH]; [now destruct rest |].
  change (String c t +:+ rest) with (String c (t +:+ rest)).
  change (String.prefix (String c t) (String c (t +:+ rest)))
    with (if Ascii.ascii_dec c c then String.prefix t (t +:+ rest) else false).
  destruct (Ascii.ascii_dec c c); [exact IH | congruence].
Qed.

Lemma includes_prefix (s t : string) : String.prefix t s = true -> includes s t = true.
Proof. intros H. destruct s; unfold includes; fold includes; rewrite H; reflexivity. Qed.

Lemma includes_append (before s t : string) :
  includes s t = true -> includes (before +:+ s) t = true.
Proof.
  intros H. induction before as [| c before IH]; [exact H |].
  change (String c before +:+ s) with (String c (before +:+ s)).
  unfold includes; fold includes. rewrite IH. apply orb_true_r.
Qed.

(** Finds [t] among the pieces a message is appended from. *)
Ltac find_included :=
  first [ apply includes_prefix, prefix_append
        | apply includes_append; find_included ].

Section AssetProperties.
Variable dir : string.
Variable join : string -> string -> string.

(** C8 — for every component name: when the asset directory is missing,
    or the directory is there and the component's JS bundle is missing,
    [loadWidgetAssets] throws an error whose message contains the path
    that was looked for and the build command; when the directory is there
    and the bundle is a file, it returns the bundle's text, the style sheet
    if one can be read, and the markup built from both. *)
Theorem loadWidgetAssets_diagnostics (fs : FileSystem) (componentName : string) :
  let jsPath := join dir (componentName +:+ ".js") in
  (fs !! dir = None ->
   exists e, loadWidgetAssets dir join fs componentName = Throw e /\
     includes (err_message e) dir = true /\
     includes (err_message e) buildCommand = true) /\
  (is_Some (fs !! dir) -> fs !! jsPath = None ->
   exists e, loadWidgetAssets dir join fs componentName = Throw e /\
     includes (err_message e) jsPath = true /\
     includes (err_message e) buildCommand = true) /\
  (forall text, is_Some (fs !! dir) -> fs !! jsPath = Some (FsFile text) ->
   exists assets, loadWidgetAssets dir join fs componentName = Normal assets /\
     js assets = text /\
     css assets =
       (match readFileSync fs (join dir (componentName +:+ ".css")) with
        | Normal s => s
        | Throw _ => EmptyString
        end) /\
     html assets = widgetHtml componentName (js assets) (css assets)).
Proof.
  intros jsPath. split; [| split].
  - intros Hdir. exists (assetsDirMissing dir). split.
    + unfold loadWidgetAssets, existsSync. now rewrite Hdir.
    + split; cbn; find_included.
  - intros [d Hdir] Hjs. exists (widgetJsMissing componentName jsPath). split.
    + unfold loadWidgetAssets, existsSync. rewrite Hdir. cbn.
      fold jsPath. now rewrite Hjs.
    + split; cbn; find_included.
  - intros text [d Hdir] Hjs. eexists. split.
    + unfold loadWidgetAssets, existsSync, readFileSync. rewrite Hdir. cbn.
      fold jsPath. rewrite Hjs. cbn. reflexivity.
    + repeat split.
Qed.

End AssetProperties.

Lemma loadWidgetAssets_diagnostics_witness :
  (exists e, loadWidgetAssets exampleAssetsDir join_plain ∅ "todo" = Throw e /\
     includes (err_message e) exampleAssetsDir = true /\
     includes (err_message e) buildCommand = true) /\
  (exists e,
     loadWidgetAssets exampleAssetsDir join_plain {[exampleAssetsDir := FsDir]} "todo" = Throw e /\
     includes (err_message e) (join_plain exampleAssetsDir "todo.js") = true /\
     includes (err_message e) buildCommand = true) /\
  (exists assets,
     loadWidgetAssets exampleAssetsDir join_plain builtDisk "todo" = Normal assets /\
     js assets = "render()").
Proof.
  split; [| split].
  - apply (proj1 (loadWidgetAssets_diagnostics exampleAssetsDir join_plain ∅ "todo")).
    reflexivity.
  - apply (proj1 (proj2 (loadWidgetAssets_diagnostics exampleAssetsDir join_plain
                           {[exampleAssetsDir := FsDir]} "todo"))).
    + exists FsDir. reflexivity.
    + vm_compute. reflexivity.
  - destruct (proj2 (proj2 (loadWidgetAssets_diagnostics exampleAssetsDir join_plain
                              builtDisk "todo")) "render()")
      as (assets & Hload & Hjs & _).
    + exists FsDir. reflexivity.
    + vm_compute. reflexivity.
    + exists assets. split; assumption.
Defined.

(** ** The session handler factory *)

Lemma new_McpServer_eq (name version : string) (w : World) :
  new_McpServer name version w =
    (Normal (fresh (dom (servers w))),
     with_servers (insert (fresh (dom (servers w))) (mkServer name version ∅ ∅)) w).
Proof. reflexivity. Qed.

Lemma fresh_server_unused (w : World) : servers w !! fresh (dom (servers w)) = None.
Proof. apply not_elem_of_dom, is_fresh. Qed.

Lemma registerResource_ok (h : handle) (name uri : string) (read : JValue) (w : World)
  (s : McpServer) :
  servers w !! h = Some s -> registeredResources s !! uri = None ->
  registerResource h name uri read w =
    (Normal tt,
     with_servers (insert h
       (mkServer (server_name s) (server_version s)
          (<[uri := mkResource name read]> (registeredResources s))
          (registeredTools s))) w).
Proof.
  intros Hs Hfree. unfold registerResource, bind, read_server. rewrite Hs, Hfree.
  reflexivity.
Qed.

Lemma registerTool_ok (h : handle) (name : string) (t : RegisteredTool) (w : World)
  (s : McpServer) :
  servers w !! h = Some s -> registeredTools s !! name = None ->
  registerTool h name t w =
    (Normal tt,
     with_servers (insert h
       (mkServer (server_name s) (server_version s) (registeredResources s)
          (<[name := t]> (registeredTools s)))) w).
Proof.
  intros Hs Hfree. unfold registerTool, bind, read_server. rewrite Hs, Hfree.
  reflexivity.
Qed.

(** Registering under a taken name throws and changes nothing. *)
Lemma registerTool_duplicate (h : handle) (name : string) (t t0 : RegisteredTool)
  (w : World) (s : McpServer) :
  servers w !! h = Some s -> registeredTools s !! name = Some t0 ->
  registerTool h name t w =
    (Throw (mkError ("Tool " +:+ name +:+ " is already registered")), w).
Proof.
  intros Hs Htaken. unfold registerTool, bind, read_server. rewrite Hs, Htaken.
  reflexivity.
Qed.

Lemma with_servers_again (h : handle) (a b : McpServer) (w : World) :
  with_servers (insert h a) (with_servers (insert h b) w) = with_servers (insert h a) w.
Proof. unfold with_servers; cbn. now rewrite insert_insert_eq. Qed.

(** Registers one descriptor on the server just written at [h]. *)
Ltac register_next lem :=
  erewrite bind_normal;
  [| apply lem; [cbn; apply lookup_insert_eq | vm_compute; reflexivity]];
  rewrite with_servers_again;
  cbn [server_name server_version registeredResources registeredTools].

Section FactoryProperties.
Variable dir : string.
Variable join : string -> string -> string.

Lemma createServerInstance_ok (w : World) (todoAssets : WidgetAssets) :
  loadWidgetAssets dir join (disk w) "todo" = Normal todoAssets ->
  createServerInstance dir join w =
    (Normal (fresh (dom (servers w))),
     with_servers (insert (fresh (dom (servers w))) (builtServer todoAssets)) w).
Proof.
  intros Hload. unfold createServerInstance.
  rewrite (bind_normal _ _ _ _ _ (new_McpServer_eq _ _ w)).
  erewrite bind_normal; [| cbn; rewrite Hload; reflexivity].
  register_next registerResource_ok.
  register_next registerTool_ok.
  register_next registerTool_ok.
  register_next registerTool_ok.
  reflexivity.
Qed.

Lemma createServerInstance_part000_ok (w : World) (todoAssets : WidgetAssets) :
  loadWidgetAssets dir join (disk w) "todo" = Normal todoAssets ->
  createServerInstance_part000 dir join w =
    (Normal (fresh (dom (servers w))),
     with_servers (insert (fresh (dom (servers w))) (builtServer_part000 todoAssets)) w).
Proof.
  intros Hload. unfold createServerInstance_part000.
  rewrite (bind_normal _ _ _ _ _ (new_McpServer_eq _ _ w)).
  erewrite bind_normal; [| cbn; rewrite Hload; reflexivity].
  register_next registerResource_ok.
  register_next registerTool_ok.
  reflexivity.
Qed.

(** Without the assets the factory throws what [loadWidgetAssets] threw,
    after allocating the server object it will never return. *)
Lemma createServerInstance_throws (w : World) (e : JsError) :
  loadWidgetAssets dir join (disk w) "todo" = Throw e ->
  createServerInstance dir join w =
    (Throw e,
     with_servers (insert (fresh (dom (servers w)))
                     (mkServer "mcp-app-server" "1.0.0" ∅ ∅)) w).
Proof.
  intros Hload. unfold createServerInstance.
  rewrite (bind_normal _ _ _ _ _ (new_McpServer_eq _ _ w)).
  erewrite bind_throw; [reflexivity |]. cbn. now rewrite Hload.
Qed.

Lemma createServerInstance_part000_throws (w : World) (e : JsError) :
  loadWidgetAssets dir join (disk w) "todo" = Throw e ->
  createServerInstance_part000 dir join w =
    (Throw e,
     with_servers (insert (fresh (dom (servers w)))
                     (mkServer "mcp-app-server" "1.0.0" ∅ ∅)) w).
Proof.
  intros Hload. unfold createServerInstance_part000.
  rewrite (bind_normal _ _ _ _ _ (new_McpServer_eq _ _ w)).
  erewrite bind_throw; [reflexivity |]. cbn. now rewrite Hload.
Qed.

End FactoryProperties.

(** ** Tool calls *)

Section ToolProperties.
Variable dir : string.
Variable join : string -> string -> string.

(** A handle the factory returned designates a fully populated server. *)
Lemma createServerInstance_returned (w w' : World) (h : handle) :
  createServerInstance dir join w = (Normal h, w') ->
  exists todoAssets,
    loadWidgetAssets dir join (disk w) "todo" = Normal todoAssets /\
    h = fresh (dom (servers w)) /\
    w' = with_servers (insert h (builtServer todoAssets)) w.
Proof.
  intros Hrun. destruct (loadWidgetAssets dir join (disk w) "todo") as [a | e] eqn:Hload.
  - rewrite (createServerInstance_ok dir join w a Hload) in Hrun.
    injection Hrun as <- <-. now exists a.
  - rewrite (createServerInstance_throws dir join w e Hload) in Hrun. discriminate.
Qed.

Lemma createServerInstance_part000_returned (w w' : World) (h : handle) :
  createServerInstance_part000 dir join w = (Normal h, w') ->
  exists todoAssets,
    loadWidgetAssets dir join (disk w) "todo" = Normal todoAssets /\
    h = fresh (dom (servers w)) /\
    w' = with_servers (insert h (builtServer_part000 todoAssets)) w.
Proof.
  intros Hrun. destruct (loadWidgetAssets dir join (disk w) "todo") as [a | e] eqn:Hload.
  - rewrite (createServerInstance_part000_ok dir join w a Hload) in Hrun.
    injection Hrun as <- <-. now exists a.
  - rewrite (createServerInstance_part000_throws dir join w e Hload) in Hrun. discriminate.
Qed.

(** C7 — on a server returned by [createServerInstance], calling show-todo
    with the input {message: m} succeeds, runs the show-todo handler on m,
    and the structuredContent of the result has a message field equal to
    m; the same holds with a userId beside the message, and on a server
    built by the earlier revision of the factory. *)
Theorem show_todo_echoes_message (now : Clock) (m : string) (w w' : World) (h : handle) :
  (createServerInstance dir join w = (Normal h, w') ->
   exists s,
     servers w' !! h = Some s /\
     invoke s now "show-todo" (Some (JObj [("message", JStr m)])) =
       Invoked (show_todo_handler m None) [] /\
     (forall u,
        invoke s now "show-todo" (Some (JObj [("message", JStr m); ("userId", JStr u)])) =
          Invoked (show_todo_handler m (Some u)) []) /\
     (forall u, jget "message" (structuredContent (show_todo_handler m u)) = Some (JStr m))) /\
  (createServerInstance_part000 dir join w = (Normal h, w') ->
   exists s,
     servers w' !! h = Some s /\
     invoke s now "show-todo" (Some (JObj [("message", JStr m)])) =
       Invoked (show_todo_handler_part000 m) [] /\
     jget "message" (structuredContent (show_todo_handler_part000 m)) = Some (JStr m)).
Proof.
  split; intros Hrun.
  - apply createServerInstance_returned in Hrun as (a & _ & -> & ->).
    exists (builtServer a). split; [cbn; apply lookup_insert_eq |].
    repeat split.
  - apply createServerInstance_part000_returned in Hrun as (a & _ & -> & ->).
    exists (builtServer_part000 a). split; [cbn; apply lookup_insert_eq |].
    repeat split.
Qed.

End ToolProperties.

Lemma show_todo_echoes_message_witness :
  exists s,
    servers (snd (createServerInstance exampleAssetsDir join_plain (initialWorld builtDisk)))
      !! 0 = Some s /\
    invoke s (fun _ => "2024-01-01T00:00:00.000Z") "show-todo"
      (Some (JObj [("message", JStr "hi")])) = Invoked (show_todo_handler "hi" None) [] /\
    jget "message" (structuredContent (show_todo_handler "hi" None)) = Some (JStr "hi").
Proof.
  destruct (proj1 (show_todo_echoes_message exampleAssetsDir join_plain
                     (fun _ => "2024-01-01T00:00:00.000Z") "hi"
                     (initialWorld builtDisk)
                     (snd (createServerInstance exampleAssetsDir join_plain
                             (initialWorld builtDisk))) 0))
    as (s & Hs & Hcall & _ & Hecho).
  - vm_compute. reflexivity.
  - exists s. split; [exact Hs |]. split; [exact Hcall | exact (Hecho None)].
Defined.

(** ** Opening a stream *)

(** Exposes the fields of a world built by the primitive updates. *)
Ltac open_world :=
  unfold ret, write_res, modify, with_responses, with_sessions, with_servers,
    with_transports, emit;
  cbn [disk servers transports responses sessions trace fst snd].

Lemma sse_connect_failed_eq (id : string) (res : handle) (e : JsError) (w : World)
  (r : ServerResponse) :
  responses w !! res = Some r ->
  sse_connect_failed id res e w =
    (Normal tt,
     mkWorld (disk w) (servers w) (transports w)
       (<[res := answered500 r]> (responses w))
       (delete id (sessions w))
       (ConsoleError "Failed to start SSE session" (err_message e) ::
        SessionsDelete id :: trace w)).
Proof.
  intros Hr. unfold sse_connect_failed.
  erewrite bind_normal; [| apply sessions_delete_eq].
  erewrite bind_normal; [| reflexivity].
  erewrite bind_normal; [| unfold read_res; cbn; rewrite Hr; reflexivity].
  unfold answered500.
  destruct (headersSent r) eqn:Hs; cbn [negb].
  - open_world. now rewrite (insert_id _ _ _ Hr).
  - erewrite bind_normal; [| apply writeHead_ok with (r := r); [exact Hr | exact Hs]].
    unfold end_, bind, read_res. cbn. rewrite lookup_insert_eq. cbn.
    destruct (writableEnded r); open_world; now rewrite ?insert_insert_eq.
Qed.

Lemma stream_open_eq (create : M handle) (cb : handle -> CloseCallback) (sdk : Sdk)
  (res : handle) (w : World) (r : ServerResponse) (s : McpServer) :
  responses w !! res = Some r -> headersSent r = false ->
  (let w1 := with_responses (insert res (corsGet r)) w in
   create w1 = (Normal (fresh (dom (servers w))),
                with_servers (insert (fresh (dom (servers w))) s) w1)) ->
  stream_open create cb sdk res w =
    (Normal tt,
     match sdk_error (sdk_connect sdk) with
     | None => opened (sdk_sessionId sdk) res (sdk_res (sdk_connect sdk)) s cb w
     | Some e => refused (sdk_sessionId sdk) res (sdk_res (sdk_connect sdk)) s cb e w
     end).
Proof.
  intros Hr Hs Hcreate. unfold stream_open.
  rewrite (bind_normal _ _ _ _ _ (setHeader_ok res _ _ w r Hr Hs)).
  fold (corsGet r). cbv zeta in Hcreate.
  rewrite (bind_normal _ _ _ _ _ Hcreate).
  erewrite bind_normal; [| reflexivity].
  erewrite bind_normal; [| reflexivity].
  erewrite bind_normal; [| reflexivity].
  erewrite bind_normal; [| reflexivity].
  unfold try_catch, await_sdk.
  erewrite bind_normal; [| reflexivity].
  destruct (sdk_error (sdk_connect sdk)) as [e |].
  - unfold throw. erewrite sse_connect_failed_eq; [| open_world; apply lookup_insert_eq].
    unfold refused, opened. open_world.
    rewrite !alter_insert_eq, !insert_insert_eq, delete_insert_eq. reflexivity.
  - unfold opened. open_world.
    rewrite !alter_insert_eq, !insert_insert_eq. reflexivity.
Qed.

Section StreamProperties.
Variable dir : string.
Variable join : string -> string -> string.

Lemma handleSseRequest_eq (sdk : Sdk) (res : handle) (w : World) (r : ServerResponse)
  (todoAssets : WidgetAssets) :
  responses w !! res = Some r -> headersSent r = false ->
  loadWidgetAssets dir join (disk w) "todo" = Normal todoAssets ->
  handleSseRequest dir join sdk res w =
    (Normal tt,
     match sdk_error (sdk_connect sdk) with
     | None =>
         opened (sdk_sessionId sdk) res (sdk_res (sdk_connect sdk))
           (builtServer todoAssets) (fun _ => OnClose (sdk_sessionId sdk)) w
     | Some e =>
         refused (sdk_sessionId sdk) res (sdk_res (sdk_connect sdk))
           (builtServer todoAssets) (fun _ => OnClose (sdk_sessionId sdk)) e w
     end).
Proof.
  intros Hr Hs Hload.
  change (handleSseRequest dir join sdk res)
    with (stream_open (createServerInstance dir join)
            (fun _ => OnClose (sdk_sessionId sdk)) sdk res).
  apply stream_open_eq with (r := r); [assumption | assumption |].
  exact (createServerInstance_ok dir join
           (with_responses (insert res (corsGet r)) w) todoAssets Hload).
Qed.

Lemma handleSseRequest_part000_eq (sdk : Sdk) (res : handle) (w : World)
  (r : ServerResponse) (todoAssets : WidgetAssets) :
  responses w !! res = Some r -> headersSent r = false ->
  loadWidgetAssets dir join (disk w) "todo" = Normal todoAssets ->
  handleSseRequest_part000 dir join sdk res w =
    (Normal tt,
     match sdk_error (sdk_connect sdk) with
     | None =>
         opened (sdk_sessionId sdk) res (sdk_res (sdk_connect sdk))
           (builtServer_part000 todoAssets)
           (OnCloseAndServerClose (sdk_sessionId sdk)) w
     | Some e =>
         refused (sdk_sessionId sdk) res (sdk_res (sdk_connect sdk))
           (builtServer_part000 todoAssets)
           (OnCloseAndServerClose (sdk_sessionId sdk)) e w
     end).
Proof.
  intros Hr Hs Hload.
  change (handleSseRequest_part000 dir join sdk res)
    with (stream_open (createServerInstance_part000 dir join)
            (OnCloseAndServerClose (sdk_sessionId sdk)) sdk res).
  apply stream_open_eq with (r := r); [assumption | assumption |].
  exact (createServerInstance_part000_ok dir join
           (with_responses (insert res (corsGet r)) w) todoAssets Hload).
Qed.

End StreamProperties.

Lemma deletions_refused (id : string) (res : handle) (r : ServerResponse) (s : McpServer)
  (cb : handle -> CloseCallback) (e : JsError) (w : World) :
  deletions id (refused id res r s cb e w) = S (deletions id w).
Proof.
  unfold deletions, refused. cbn. now rewrite String.eqb_refl.
Qed.

Lemma refused_undone (id : string) (res : handle) (left : ServerResponse) (s : McpServer)
  (cb : handle -> CloseCallback) (e : JsError) (w : World) :
  undone id res left w (refused id res left s cb e w).
Proof.
  unfold undone. split; [cbn; apply lookup_delete_eq |].
  split; [reflexivity |].
  split; [intros Hfresh; cbn; now apply delete_id |].
  split; [apply deletions_refused |].
  split.
  - intros Hs. exists (answered500 left). split; [cbn; apply lookup_insert_eq |].
    unfold answered500. rewrite Hs.
    destruct (writableEnded left); cbn; repeat split; congruence.
  - intros Hs. cbn. rewrite lookup_insert_eq. unfold answered500. now rewrite Hs.
Qed.

Section ConnectFailure.
Variable dir : string.
Variable join : string -> string -> string.

(** C10 — when [server.connect] throws during a stream-open whose server
    was built, the handler still completes normally; the session id it
    entered is gone from the session map when it returns, so a map that
    did not hold the id before is exactly as it was; and when the response
    headers are not yet sent the response carries status 500 (with the
    body "Failed to establish SSE connection" unless the response was
    already ended).  Both revisions of the handler behave so. *)
Theorem failed_stream_open_is_undone (sdk : Sdk) (res : handle) (w : World)
  (r : ServerResponse) (todoAssets : WidgetAssets) (e : JsError) :
  responses w !! res = Some r -> headersSent r = false ->
  loadWidgetAssets dir join (disk w) "todo" = Normal todoAssets ->
  sdk_error (sdk_connect sdk) = Some e ->
  (exists w',
     handleSseRequest dir join sdk res w = (Normal tt, w') /\
     undone (sdk_sessionId sdk) res (sdk_res (sdk_connect sdk)) w w') /\
  (exists w',
     handleSseRequest_part000 dir join sdk res w = (Normal tt, w') /\
     undone (sdk_sessionId sdk) res (sdk_res (sdk_connect sdk)) w w').
Proof.
  intros Hr Hs Hload He. split; eexists; split.
  - rewrite (handleSseRequest_eq dir join sdk res w r todoAssets Hr Hs Hload), He.
    reflexivity.
  - apply refused_undone.
  - rewrite (handleSseRequest_part000_eq dir join sdk res w r todoAssets Hr Hs Hload), He.
    reflexivity.
  - apply refused_undone.
Qed.

End ConnectFailure.

Lemma failed_stream_open_is_undone_witness :
  exists w',
    handleSseRequest exampleAssetsDir join_plain refusingSdk 0 awaiting = (Normal tt, w') /\
    undone "S1" 0 freshResponse awaiting w'.
Proof.
  apply (proj1 (failed_stream_open_is_undone exampleAssetsDir join_plain refusingSdk 0
                  awaiting freshResponse
                  (mkAssets "render()" EmptyString
                     (widgetHtml "todo" "render()" EmptyString))
                  (mkError "SSEServerTransport already started")
                  ltac:(vm_compute; reflexivity) ltac:(reflexivity)
                  ltac:(vm_compute; reflexivity) ltac:(reflexivity))).
Defined.

(** ** What requests and callbacks preserve *)

Lemma quiet_ret {A : Type} (a : A) : quiet (ret a).
Proof. intros w. repeat split. Qed.

Lemma quiet_throw {A : Type} (e : JsError) : quiet (@throw A e).
Proof. intros w. repeat split. Qed.

Lemma quiet_bind {A B : Type} (m : M A) (k : A -> M B) :
  quiet m -> (forall a, quiet (k a)) -> quiet (bind m k).
Proof.
  intros Hm Hk w. unfold bind. specialize (Hm w).
  destruct (m w) as [[a | e] w1]; cbn in *; [| exact Hm].
  destruct (Hk a w1) as (H1 & H2 & H3 & H4), Hm as (G1 & G2 & G3 & G4).
  repeat split; congruence.
Qed.

Lemma quiet_try_catch {A : Type} (m : M A) (h : JsError -> M A) :
  quiet m -> (forall e, quiet (h e)) -> quiet (try_catch m h).
Proof.
  intros Hm Hh w. unfold try_catch. specialize (Hm w).
  destruct (m w) as [[a | e] w1]; cbn in *; [exact Hm |].
  destruct (Hh e w1) as (H1 & H2 & H3 & H4), Hm as (G1 & G2 & G3 & G4).
  repeat split; congruence.
Qed.

Lemma quiet_read_res (res : handle) : quiet (read_res res).
Proof. intros w. unfold read_res. destruct (responses w !! res); repeat split. Qed.

Lemma quiet_write_res (res : handle) (r : ServerResponse) : quiet (write_res res r).
Proof. intros w. repeat split. Qed.

Lemma quiet_console_error (label detail : string) : quiet (console_error label detail).
Proof. intros w. repeat split. Qed.

Lemma quiet_sessions_get (id : string) : quiet (sessions_get id).
Proof. intros w. repeat split. Qed.

Lemma quiet_server_close (h : handle) : quiet (server_close h).
Proof. intros w. repeat split. Qed.

Lemma quiet_read_transport (t : handle) : quiet (read_transport t).
Proof. intros w. unfold read_transport. destruct (transports w !! t); repeat split. Qed.

(** Reduces a goal [quiet m] along the structure of [m]. *)
Ltac quiet_steps :=
  repeat first
    [ apply quiet_ret | apply quiet_throw | apply quiet_read_res | apply quiet_write_res
    | apply quiet_console_error | apply quiet_sessions_get | apply quiet_server_close
    | apply quiet_read_transport
    | apply quiet_bind; [| intros ?]
    | apply quiet_try_catch; [| intros ?]
    | match goal with
      | |- quiet (if ?b then _ else _) => destruct b
      | |- quiet (match ?x with _ => _ end) => destruct x
      end ].

Lemma quiet_setHeader (res : handle) (name value : string) : quiet (setHeader res name value).
Proof. unfold setHeader. quiet_steps. Qed.

Lemma quiet_writeHead (res : handle) (code : nat) (hs : list (string * string)) :
  quiet (writeHead res code hs).
Proof. unfold writeHead. quiet_steps. Qed.

Lemma quiet_end (res : handle) (data : string) : quiet (end_ res data).
Proof. unfold end_. quiet_steps. Qed.

Lemma quiet_await_sdk (o : SdkOutcome) (res : handle) : quiet (await_sdk o res).
Proof. unfold await_sdk. quiet_steps. Qed.

Lemma quiet_emit (e : Effect) : quiet (modify (emit e)).
Proof. intros w. repeat split. Qed.

Lemma quiet_transport_handlePostMessage (t : handle) (o : SdkOutcome) (res : handle) :
  quiet (transport_handlePostMessage t o res).
Proof.
  unfold transport_handlePostMessage.
  apply quiet_bind; [apply quiet_read_transport | intros _].
  apply quiet_bind; [apply quiet_emit | intros _; apply quiet_await_sdk].
Qed.

Lemma quiet_handlePostMessage (sdk : Sdk) (res : handle) (u : URL) :
  quiet (handlePostMessage sdk res u).
Proof.
  unfold handlePostMessage.
  repeat first
    [ apply quiet_setHeader | apply quiet_writeHead | apply quiet_end
    | apply quiet_transport_handlePostMessage | apply quiet_emit
    | progress quiet_steps ].
Qed.

Lemma quiet_fire_error (t : handle) (error : string) : quiet (fire_error t error).
Proof. unfold fire_error, run_onerror. quiet_steps. Qed.

Lemma grows_refl (w : World) : grows w w.
Proof. repeat split; auto. Qed.

Lemma grows_trans (w1 w2 w3 : World) : grows w1 w2 -> grows w2 w3 -> grows w1 w3.
Proof.
  intros (S12 & D12 & W12) (S23 & D23 & W23). repeat split.
  - now transitivity (servers w2).
  - congruence.
  - auto.
Qed.

Lemma quiet_grows {A : Type} (m : M A) (w : World) : quiet m -> grows w (snd (m w)).
Proof.
  intros Hq. destruct (Hq w) as (Hs & _ & Hse & Hd). repeat split.
  - now rewrite Hs.
  - exact Hd.
  - unfold wf. rewrite Hs, Hse. auto.
Qed.

(** Worlds that agree on servers, sessions and disk grow alike. *)
Lemma grows_same (w w0 w' : World) :
  servers w0 = servers w -> sessions w0 = sessions w -> disk w0 = disk w ->
  grows w0 w' -> grows w w'.
Proof.
  intros Hs Hse Hd (S & D & W). unfold grows, wf in *.
  rewrite Hs, Hse, Hd in *. auto.
Qed.

Lemma wf_delete (id : string) (w w' : World) :
  servers w ⊆ servers w' -> sessions w' = delete id (sessions w) -> wf w -> wf w'.
Proof.
  intros Hsub Hdel Hwf id' record Hrec. rewrite Hdel in Hrec.
  apply lookup_delete_Some in Hrec as [_ Hrec].
  destruct (Hwf id' record Hrec) as [s Hs]. exists s.
  eapply lookup_weaken; eassumption.
Qed.

Lemma grows_sessions_delete (id : string) (w : World) :
  grows w (snd (sessions_delete id w)).
Proof.
  rewrite sessions_delete_eq. repeat split; [reflexivity |].
  now apply wf_delete with (id := id) (w := w).
Qed.

Lemma grows_opened (id : string) (res : handle) (r : ServerResponse) (s : McpServer)
  (cb : handle -> CloseCallback) (w : World) :
  grows w (opened id res r s cb w).
Proof.
  assert (Hsub : servers w ⊆ <[fresh (dom (servers w)) := s]> (servers w))
    by apply insert_subseteq, fresh_server_unused.
  repeat split; [exact Hsub |].
  intros Hwf id' record Hrec. cbn in *.
  destruct (decide (id = id')) as [<- | Hne].
  - rewrite lookup_insert_eq in Hrec. injection Hrec as <-. cbn.
    rewrite lookup_insert_eq. eauto.
  - rewrite lookup_insert_ne in Hrec by exact Hne.
    destruct (Hwf id' record Hrec) as [s0 Hs0]. exists s0.
    eapply lookup_weaken; eassumption.
Qed.

Lemma grows_refused (id : string) (res : handle) (r : ServerResponse) (s : McpServer)
  (cb : handle -> CloseCallback) (e : JsError) (w : World) :
  grows w (refused id res r s cb e w).
Proof.
  assert (Hsub : servers w ⊆ <[fresh (dom (servers w)) := s]> (servers w))
    by apply insert_subseteq, fresh_server_unused.
  repeat split; [exact Hsub |].
  now apply wf_delete with (id := id) (w := w).
Qed.

Section Preservation.
Variable dir : string.
Variable join : string -> string -> string.

Lemma handleSseRequest_throws_eq (sdk : Sdk) (res : handle) (w : World)
  (r : ServerResponse) (e : JsError) :
  responses w !! res = Some r -> headersSent r = false ->
  loadWidgetAssets dir join (disk w) "todo" = Throw e ->
  handleSseRequest dir join sdk res w =
    (Throw e,
     with_servers (insert (fresh (dom (servers w))) (mkServer "mcp-app-server" "1.0.0" ∅ ∅))
       (with_responses (insert res (corsGet r)) w)).
Proof.
  intros Hr Hs Hload. unfold handleSseRequest.
  rewrite (bind_normal _ _ _ _ _ (setHeader_ok res _ _ w r Hr Hs)).
  erewrite bind_throw; [reflexivity |].
  exact (createServerInstance_throws dir join
           (with_responses (insert res (corsGet r)) w) e Hload).
Qed.

Lemma handleSseRequest_grows (sdk : Sdk) (res : handle) (w : World) (r : ServerResponse) :
  responses w !! res = Some r -> headersSent r = false ->
  grows w (snd (handleSseRequest dir join sdk res w)).
Proof.
  intros Hr Hs.
  destruct (loadWidgetAssets dir join (disk w) "todo") as [a | e] eqn:Hload.
  - rewrite (handleSseRequest_eq dir join sdk res w r a Hr Hs Hload). cbn [snd].
    destruct (sdk_error (sdk_connect sdk)); [apply grows_refused | apply grows_opened].
  - rewrite (handleSseRequest_throws_eq sdk res w r e Hr Hs Hload). cbn [snd].
    repeat split.
    + cbn. apply insert_subseteq, fresh_server_unused.
    + intros Hwf id record Hrec. cbn in *.
      destruct (Hwf id record Hrec) as [s0 Hs0]. exists s0.
      eapply lookup_weaken; [exact Hs0 |].
      apply insert_subseteq, fresh_server_unused.
Qed.

Lemma requestListener_grows (sdk : Sdk) (req : IncomingMessage) (res : handle) (w : World)
  (r : ServerResponse) :
  responses w !! res = Some r -> headersSent r = false ->
  grows w (snd (requestListener dir join sdk req res w)).
Proof.
  intros Hr Hs. unfold requestListener.
  destruct (url req) as [u |].
  - destruct (_ && _).
    { apply quiet_grows, quiet_bind; [apply quiet_writeHead | intros; apply quiet_end]. }
    destruct (_ && _).
    { now apply handleSseRequest_grows with (r := r). }
    destruct (_ && _).
    { apply quiet_grows, quiet_handlePostMessage. }
    apply quiet_grows, quiet_bind; [apply quiet_writeHead | intros; apply quiet_end].
  - apply quiet_grows, quiet_bind; [apply quiet_writeHead | intros; apply quiet_end].
Qed.

Lemma on_request_grows (sdk : Sdk) (req : IncomingMessage) (w : World) :
  grows w (snd (on_request dir join sdk req w)).
Proof.
  unfold on_request.
  rewrite (bind_normal _ _ _ _ _ (new_ServerResponse_eq w)).
  set (res := fresh (dom (responses w))).
  set (w0 := with_responses (insert res freshResponse) w).
  assert (Hg : grows w0 (snd (requestListener dir join sdk req res w0))).
  { apply requestListener_grows with (r := freshResponse);
      [cbn; apply lookup_insert_eq | reflexivity]. }
  apply (grows_same w w0); try reflexivity.
  unfold bind. destruct (requestListener dir join sdk req res w0) as [[[] | e] w1]; exact Hg.
Qed.

Lemma fire_close_grows (t : handle) (w : World) : grows w (snd (fire_close t w)).
Proof.
  pose proof (grows_sessions_delete) as Hdel.
  unfold fire_close. unfold bind at 1, read_transport.
  destruct (transports w !! t) as [tr |]; [| apply grows_refl].
  destruct (onclose tr) as [[id | id h] |]; [| | apply grows_refl].
  - unfold run_onclose. rewrite (bind_normal _ _ _ _ _ (sessions_delete_eq id w)).
    specialize (Hdel id w). rewrite sessions_delete_eq in Hdel. exact Hdel.
  - unfold run_onclose. rewrite (bind_normal _ _ _ _ _ (sessions_delete_eq id w)).
    specialize (Hdel id w). rewrite sessions_delete_eq in Hdel.
    eapply grows_trans; [exact Hdel |].
    apply (quiet_grows (server_close h)), quiet_server_close.
Qed.

Lemma step_grows (ev : Event) (w : World) : grows w (snd (step dir join ev w)).
Proof.
  destruct ev as [req sdk | t | t error]; cbn [step].
  - pose proof (on_request_grows sdk req w) as Hg.
    unfold bind. destruct (on_request dir join sdk req w) as [[res | e] w1]; exact Hg.
  - apply fire_close_grows.
  - apply quiet_grows, quiet_fire_error.
Qed.

Lemma run_grows (evs : list Event) (w : World) : grows w (run dir join evs w).
Proof.
  revert w. induction evs as [| ev evs IH]; intros w; [apply grows_refl |].
  change (run dir join (ev :: evs) w)
    with (run dir join evs (snd (step dir join ev w))).
  eapply grows_trans; [apply step_grows | apply IH].
Qed.

Lemma wf_initialWorld (fs : FileSystem) : wf (initialWorld fs).
Proof. intros id record Hrec. cbn in Hrec. now rewrite lookup_empty in Hrec. Qed.

(** Every world the server can reach from start-up is well formed and has
    the disk it started with. *)
Lemma reachable_wf (fs : FileSystem) (evs : list Event) :
  wf (run dir join evs (initialWorld fs)) /\
  disk (run dir join evs (initialWorld fs)) = fs.
Proof.
  destruct (run_grows evs (initialWorld fs)) as (_ & Hd & Hwf).
  split; [apply Hwf, wf_initialWorld | exact Hd].
Qed.

End Preservation.


(** ** Teardown *)

Section Teardown.
Variable dir : string.
Variable join : string -> string -> string.

Lemma run_cons (ev : Event) (evs : list Event) (w : World) :
  run dir join (ev :: evs) w = run dir join evs (snd (step dir join ev w)).
Proof. reflexivity. Qed.

(** One firing of the close callback of server.ts. *)
Lemma fire_close_eq (t : handle) (w : World) (tr : SSEServerTransport) (id : string) :
  transports w !! t = Some tr -> onclose tr = Some (OnClose id) ->
  exists w',
    fire_close t w = (Normal tt, w') /\
    sessions w' = delete id (sessions w) /\
    transports w' = transports w /\ responses w' = responses w /\
    servers w' = servers w /\
    deletions id w' = S (deletions id w).
Proof.
  intros Ht Hcb. unfold fire_close, bind at 1, read_transport. rewrite Ht, Hcb.
  unfold run_onclose. rewrite (bind_normal _ _ _ _ _ (sessions_delete_eq id _)).
  eexists. split; [reflexivity |]. repeat split.
  unfold deletions. cbn. now rewrite String.eqb_refl.
Qed.

(** One firing of the error callback: a line on the console. *)
Lemma fire_error_eq (t : handle) (error : string) (w : World) (tr : SSEServerTransport) :
  transports w !! t = Some tr -> onerror tr = Some OnErrorLog ->
  fire_error t error w = (Normal tt, emit (ConsoleError "SSE transport error" error) w).
Proof.
  intros Ht Hcb. unfold fire_error, bind, read_transport. rewrite Ht, Hcb. reflexivity.
Qed.



End Teardown.



(** * Further properties of the router *)

Lemma writeHead_end_fresh (res : handle) (code : nat) (hs : list (string * string))
  (data : string) (w : World) :
  bind (writeHead res code hs) (fun _ => end_ res data)
    (with_responses (insert res freshResponse) w) =
    (Normal tt, with_responses (insert res (mkRes hs code true data true)) w).
Proof.
  erewrite bind_normal;
    [| apply writeHead_ok with (r := freshResponse);
       [cbn; apply lookup_insert_eq | reflexivity]].
  erewrite end_ok; [| cbn; apply lookup_insert_eq | reflexivity].
  open_world. cbn. now rewrite !insert_insert_eq, app_nil_r.
Qed.

Section Routing.
Variable dir : string.
Variable join : string -> string -> string.

Lemma requestListener_routes (sdk : Sdk) (req : IncomingMessage) (res : handle) :
  requestListener dir join sdk req res =
    match url req with
    | None => bind (writeHead res 400 []) (fun _ => end_ res "Missing URL")
    | Some u =>
        if isPreflight req u then
          bind (writeHead res 204
                  [("Access-Control-Allow-Origin", "*");
                   ("Access-Control-Allow-Methods", "GET, POST, OPTIONS");
                   ("Access-Control-Allow-Headers", "content-type")])
            (fun _ => end_ res EmptyString)
        else if isStreamOpen req u then handleSseRequest dir join sdk res
        else if isMessagePost req u then handlePostMessage sdk res u
        else bind (writeHead res 404 []) (fun _ => end_ res "Not Found")
    end.
Proof. reflexivity. Qed.

(** A listener that answers with [writeHead(code, hs).end(data)] and does
    nothing else. *)
Lemma on_request_answered (sdk : Sdk) (req : IncomingMessage) (w : World) (code : nat)
  (hs : list (string * string)) (data : string) :
  (forall res, requestListener dir join sdk req res =
               bind (writeHead res code hs) (fun _ => end_ res data)) ->
  answered w (on_request dir join sdk req w) (mkRes hs code true data true).
Proof.
  intros Hroute. exists (fresh (dom (responses w))). eexists. split.
  - unfold on_request.
    rewrite (bind_normal _ _ _ _ _ (new_ServerResponse_eq w)).
    rewrite Hroute.
    rewrite (bind_normal _ _ _ _ _ (writeHead_end_fresh _ code hs data w)).
    reflexivity.
  - split; [apply fresh_response_unused |].
    cbn. rewrite lookup_insert_eq. repeat split.
Qed.

(** X1 — A preflight on either path is answered 204 with the three CORS
    headers and an empty body; sessions, servers, transports and the trace
    are not touched. *)
Theorem preflight_is_204 (sdk : Sdk) (req : IncomingMessage) (u : URL) (w : World) :
  method req = "OPTIONS" -> url req = Some u ->
  pathname u = ssePath \/ pathname u = postPath ->
  answered w (on_request dir join sdk req w)
    (mkRes [("Access-Control-Allow-Origin", "*");
            ("Access-Control-Allow-Methods", "GET, POST, OPTIONS");
            ("Access-Control-Allow-Headers", "content-type")]
       204 true EmptyString true).
Proof.
  intros Hm Hu Hp. apply on_request_answered. intros res.
  rewrite requestListener_routes, Hu. unfold isPreflight. rewrite Hm.
  destruct Hp as [-> | ->]; reflexivity.
Qed.

(** X2 — A request without a URL is answered 400 "Missing URL", whatever its
    method, and nothing else moves. *)
Theorem missing_url_is_400 (sdk : Sdk) (req : IncomingMessage) (w : World) :
  url req = None ->
  answered w (on_request dir join sdk req w) (mkRes [] 400 true "Missing URL" true).
Proof.
  intros Hu. apply on_request_answered. intros res.
  now rewrite requestListener_routes, Hu.
Qed.

End Routing.

Lemma preflight_is_204_witness :
  answered oneSession
    (on_request exampleAssetsDir join_plain (exampleSdk "S2")
       (mkReq "OPTIONS" (Some (mkURL postPath []))) oneSession)
    (mkRes [("Access-Control-Allow-Origin", "*");
            ("Access-Control-Allow-Methods", "GET, POST, OPTIONS");
            ("Access-Control-Allow-Headers", "content-type")]
       204 true EmptyString true).
Proof.
  apply (preflight_is_204 exampleAssetsDir join_plain (exampleSdk "S2")
           (mkReq "OPTIONS" (Some (mkURL postPath []))) (mkURL postPath []) oneSession);
    [reflexivity | reflexivity | right; reflexivity].
Defined.

Lemma missing_url_is_400_witness :
  answered oneSession
    (on_request exampleAssetsDir join_plain (exampleSdk "S2") (mkReq "GET" None) oneSession)
    (mkRes [] 400 true "Missing URL" true).
Proof.
  apply (missing_url_is_400 exampleAssetsDir join_plain (exampleSdk "S2")
           (mkReq "GET" None) oneSession).
  reflexivity.
Defined.


(** ** Forwarding to the session's transport *)

Lemma handlePostMessage_known (sdk : Sdk) (res : handle) (u : URL) (w : World)
  (r : ServerResponse) (id : string) (record : SessionRecord) (tr : SSEServerTransport) :
  responses w !! res = Some r -> headersSent r = false ->
  searchParams_get u "sessionId" = Some id -> id <> EmptyString ->
  sessions w !! id = Some record ->
  transports w !! transport record = Some tr ->
  handlePostMessage sdk res u w =
    (Normal tt, forwarded (transport record) (sdk_handlePostMessage sdk) res w).
Proof.
  intros Hr Hs Hid Hne Hrec Htr. unfold handlePostMessage.
  rewrite (bind_normal _ _ _ _ _ (setHeader_ok res _ _ w r Hr Hs)).
  erewrite bind_normal; [| apply setHeader_ok; [cbn; apply lookup_insert_eq | reflexivity]].
  rewrite Hid. cbn [falsy].
  destruct (String.eqb_spec id EmptyString) as [-> | _]; [congruence |].
  erewrite (bind_normal (sessions_get _));
    [| unfold sessions_get, gets; cbn; rewrite Hrec; reflexivity].
  cbv beta iota. unfold try_catch, transport_handlePostMessage, await_sdk, forwarded.
  erewrite bind_normal; [| unfold read_transport; open_world; rewrite Htr; reflexivity].
  erewrite bind_normal; [| reflexivity].
  erewrite bind_normal; [| reflexivity].
  destruct (sdk_error (sdk_handlePostMessage sdk)) as [e |].
  - unfold throw. erewrite bind_normal; [| reflexivity].
    erewrite bind_normal; [| unfold read_res; open_world; rewrite lookup_insert_eq; reflexivity].
    unfold answeredFailure.
    destruct (headersSent (sdk_res (sdk_handlePostMessage sdk))) eqn:Hsent; cbn [negb].
    + open_world. unfold console_error. open_world. now rewrite !insert_insert_eq.
    + erewrite bind_normal;
        [| apply writeHead_ok with (r := sdk_res (sdk_handlePostMessage sdk));
           [open_world; unfold console_error; open_world; apply lookup_insert_eq
           | exact Hsent]].
      unfold end_, bind, read_res. open_world. unfold console_error. open_world.
      rewrite lookup_insert_eq. cbn.
      destruct (writableEnded (sdk_res (sdk_handlePostMessage sdk)));
        open_world; now rewrite !insert_insert_eq.
  - open_world. now rewrite !insert_insert_eq.
Qed.

(** A record naming no transport object: the call itself throws inside
    the try block and is answered like any other failure. *)
Lemma handlePostMessage_dangling (sdk : Sdk) (res : handle) (u : URL) (w : World)
  (r : ServerResponse) (id : string) (record : SessionRecord) :
  responses w !! res = Some r -> headersSent r = false ->
  searchParams_get u "sessionId" = Some id -> id <> EmptyString ->
  sessions w !! id = Some record ->
  transports w !! transport record = None ->
  exists w', handlePostMessage sdk res u w = (Normal tt, w').
Proof.
  intros Hr Hs Hid Hne Hrec Htr. unfold handlePostMessage.
  rewrite (bind_normal _ _ _ _ _ (setHeader_ok res _ _ w r Hr Hs)).
  erewrite bind_normal; [| apply setHeader_ok; [cbn; apply lookup_insert_eq | reflexivity]].
  rewrite Hid. cbn [falsy].
  destruct (String.eqb_spec id EmptyString) as [-> | _]; [congruence |].
  erewrite (bind_normal (sessions_get _));
    [| unfold sessions_get, gets; cbn; rewrite Hrec; reflexivity].
  cbv beta iota. unfold try_catch, transport_handlePostMessage.
  erewrite bind_throw; [| unfold read_transport; open_world; rewrite Htr; reflexivity].
  erewrite bind_normal; [| reflexivity].
  erewrite bind_normal;
    [| unfold read_res, console_error; open_world; rewrite lookup_insert_eq; reflexivity].
  cbn [negb headersSent].
  erewrite bind_normal;
    [| apply writeHead_ok; [unfold console_error; open_world; apply lookup_insert_eq
                           | reflexivity]].
  unfold end_, bind, read_res, console_error. open_world. rewrite lookup_insert_eq.
  cbn [writableEnded]. destruct (writableEnded r); eexists; reflexivity.
Qed.

Section Forwarding.
Variable dir : string.
Variable join : string -> string -> string.

Lemma on_request_post (sdk : Sdk) (req : IncomingMessage) (u : URL) (w : World) (w' : World) :
  method req = "POST" -> url req = Some u -> pathname u = postPath ->
  handlePostMessage sdk (fresh (dom (responses w))) u
    (with_responses (insert (fresh (dom (responses w))) freshResponse) w) = (Normal tt, w') ->
  on_request dir join sdk req w = (Normal (fresh (dom (responses w))), w').
Proof.
  intros Hm Hu Hp Hpost. unfold on_request.
  rewrite (bind_normal _ _ _ _ _ (new_ServerResponse_eq w)).
  rewrite (requestListener_post dir join sdk req u _ Hm Hu Hp).
  now rewrite (bind_normal _ _ _ _ _ Hpost).
Qed.

Lemma on_request_forwarded (sdk : Sdk) (req : IncomingMessage) (u : URL) (w : World)
  (id : string) (record : SessionRecord) (tr : SSEServerTransport) :
  method req = "POST" -> url req = Some u -> pathname u = postPath ->
  searchParams_get u "sessionId" = Some id -> id <> EmptyString ->
  sessions w !! id = Some record ->
  transports w !! transport record = Some tr ->
  on_request dir join sdk req w =
    (Normal (fresh (dom (responses w))),
     forwarded (transport record) (sdk_handlePostMessage sdk) (fresh (dom (responses w)))
       (with_responses (insert (fresh (dom (responses w))) freshResponse) w)).
Proof.
  intros Hm Hu Hp Hid Hne Hrec Htr. apply (on_request_post sdk req u w _ Hm Hu Hp).
  apply handlePostMessage_known
    with (r := freshResponse) (id := id) (record := record) (tr := tr);
    try assumption; [cbn; apply lookup_insert_eq | reflexivity].
Qed.

(** What a forwarded POST leaves, spelled out. *)
Lemma forwarded_facts (t : handle) (o : SdkOutcome) (res : handle) (w : World) :
  responses w !! res = None ->
  let w' := forwarded t o res (with_responses (insert res freshResponse) w) in
  sessions w' = sessions w /\ servers w' = servers w /\ transports w' = transports w /\
  (sdk_error o = None ->
   responses w' !! res = Some (sdk_res o) /\ trace w' = HandlePostMessage t :: trace w) /\
  (forall e, sdk_error o = Some e ->
   trace w' = ConsoleError "Failed to process message" (err_message e) ::
              HandlePostMessage t :: trace w /\
   (headersSent (sdk_res o) = true -> responses w' !! res = Some (sdk_res o)) /\
   (headersSent (sdk_res o) = false -> writableEnded (sdk_res o) = false ->
    responses w' !! res =
      Some (mkRes (res_headers (sdk_res o)) 500 true
              (res_body (sdk_res o) +:+ "Failed to process message") true))).
Proof.
  intros _ w'. unfold w', forwarded.
  destruct (sdk_error o) as [e |]; cbn.
  - do 3 (split; [reflexivity |]). split; [discriminate |].
    intros e' [= <-]. split; [reflexivity |].
    rewrite lookup_insert_eq. unfold answeredFailure.
    split; [intros -> | intros -> ->]; reflexivity.
  - do 3 (split; [reflexivity |]). split; [| discriminate].
    intros _. split; [apply lookup_insert_eq | reflexivity].
Qed.

(** A parsed request that is not a stream-open never lets an exception
    escape the listener and never changes sessions, servers or
    transports. *)
Lemma parsed_request_completes (sdk : Sdk) (req : IncomingMessage) (w : World) :
  (forall u, url req = Some u -> isPreflight req u = false -> isStreamOpen req u = false) ->
  exists res w',
    on_request dir join sdk req w = (Normal res, w') /\
    sessions w' = sessions w /\ servers w' = servers w /\ transports w' = transports w.
Proof.
  intros Hnot.
  assert (Hanswered : forall r', answered w (on_request dir join sdk req w) r' ->
            exists res w',
              on_request dir join sdk req w = (Normal res, w') /\
              sessions w' = sessions w /\ servers w' = servers w /\
              transports w' = transports w).
  { intros r' (res & w' & Heq & _ & _ & Hs & Hsv & Ht & _). now exists res, w'. }
  destruct (url req) as [u |] eqn:Hu.
  - destruct (isPreflight req u) eqn:Hpre.
    { eapply Hanswered, on_request_answered. intros res.
      rewrite requestListener_routes, Hu, Hpre. reflexivity. }
    specialize (Hnot u eq_refl Hpre).
    destruct (isMessagePost req u) eqn:Hpost.
    + apply andb_true_iff in Hpost as [Hm Hp].
      apply String.eqb_eq in Hm, Hp.
      set (res := fresh (dom (responses w))).
      set (w0 := with_responses (insert res freshResponse) w).
      destruct (handlePostMessage sdk res u w0) as [[[] | e] w'] eqn:Hrun.
      * exists res, w'. split; [now apply (on_request_post sdk req u w w') |].
        destruct (quiet_handlePostMessage sdk res u w0) as (Hsv & Ht & Hs & _).
        rewrite Hrun in Hsv, Ht, Hs. cbn in Hsv, Ht, Hs. now rewrite Hsv, Ht, Hs.
      * exfalso.
        assert (Hr0 : responses w0 !! res = Some freshResponse)
          by (cbn; apply lookup_insert_eq).
        destruct (falsy (searchParams_get u "sessionId")) eqn:Hf.
        { rewrite (handlePostMessage_missing sdk res u w0 freshResponse Hr0
                     eq_refl eq_refl Hf) in Hrun. discriminate. }
        destruct (searchParams_get u "sessionId") as [id |] eqn:Hid; [| discriminate].
        cbn in Hf. apply String.eqb_neq in Hf.
        destruct (sessions w0 !! id) as [record |] eqn:Hrec.
        { destruct (transports w0 !! transport record) as [tr |] eqn:Htr.
          - rewrite (handlePostMessage_known sdk res u w0 freshResponse id record tr Hr0
                       eq_refl Hid Hf Hrec Htr) in Hrun. discriminate.
          - destruct (handlePostMessage_dangling sdk res u w0 freshResponse id record Hr0
                        eq_refl Hid Hf Hrec Htr) as (w1 & Hw1).
            rewrite Hw1 in Hrun. discriminate. }
        rewrite (handlePostMessage_unknown sdk res u w0 freshResponse id Hr0
                   eq_refl eq_refl Hid Hf Hrec) in Hrun. discriminate.
    + eapply Hanswered, on_request_answered. intros res.
      rewrite requestListener_routes, Hu, Hpre, Hnot, Hpost. reflexivity.
  - eapply Hanswered, on_request_answered. intros res.
    rewrite requestListener_routes, Hu. reflexivity.
Qed.

End Forwarding.

(** ** Stream-open requests at the router *)

Section StreamOpen.
Variable dir : string.
Variable join : string -> string -> string.

Lemma on_request_stream (sdk : Sdk) (req : IncomingMessage) (u : URL) (w : World)
  (out : Completion unit * World) :
  url req = Some u -> isPreflight req u = false -> isStreamOpen req u = true ->
  handleSseRequest dir join sdk (fresh (dom (responses w)))
    (with_responses (insert (fresh (dom (responses w))) freshResponse) w) = out ->
  on_request dir join sdk req w =
    match out with
    | (Normal _, w') => (Normal (fresh (dom (responses w))), w')
    | (Throw e, w') => (Throw e, w')
    end.
Proof.
  intros Hu Hpre Hget <-. unfold on_request.
  rewrite (bind_normal _ _ _ _ _ (new_ServerResponse_eq w)).
  rewrite requestListener_routes, Hu, Hpre, Hget. unfold bind.
  destruct (handleSseRequest _ _ _ _ _) as [[[] | e] w']; reflexivity.
Qed.

(** X6 — A stream-open request lets an exception escape the listener exactly
    when the widget assets do not load: the exception is the loader's, the
    response is left unanswered with only the CORS header set, and no
    session or transport is created; when the assets load the listener
    completes, whether or not the connect call throws. *)
Theorem stream_open_throws_without_assets (sdk : Sdk) (req : IncomingMessage) (u : URL)
  (w : World) :
  url req = Some u -> isPreflight req u = false -> isStreamOpen req u = true ->
  (forall e,
     loadWidgetAssets dir join (disk w) "todo" = Throw e ->
     exists w',
       on_request dir join sdk req w = (Throw e, w') /\
       sessions w' = sessions w /\ transports w' = transports w /\ trace w' = trace w /\
       responses w' !! fresh (dom (responses w)) =
         Some (mkRes [("Access-Control-Allow-Origin", "*")] 200 false EmptyString false)) /\
  (forall todoAssets,
     loadWidgetAssets dir join (disk w) "todo" = Normal todoAssets ->
     exists res w', on_request dir join sdk req w = (Normal res, w')).
Proof.
  intros Hu Hpre Hget. split.
  - intros e Hload. eexists. split.
    + rewrite (on_request_stream sdk req u w _ Hu Hpre Hget eq_refl).
      erewrite handleSseRequest_throws_eq;
        [reflexivity | cbn; apply lookup_insert_eq | reflexivity | exact Hload].
    + cbn. rewrite lookup_insert_eq. repeat split.
  - intros a Hload. eexists. eexists.
    rewrite (on_request_stream sdk req u w _ Hu Hpre Hget eq_refl).
    erewrite handleSseRequest_eq;
      [reflexivity | cbn; apply lookup_insert_eq | reflexivity | exact Hload].
Qed.

Lemma on_request_opened (sdk : Sdk) (req : IncomingMessage) (u : URL) (w : World)
  (todoAssets : WidgetAssets) :
  url req = Some u -> isPreflight req u = false -> isStreamOpen req u = true ->
  loadWidgetAssets dir join (disk w) "todo" = Normal todoAssets ->
  sdk_error (sdk_connect sdk) = None ->
  on_request dir join sdk req w =
    (Normal (fresh (dom (responses w))),
     opened (sdk_sessionId sdk) (fresh (dom (responses w))) (sdk_res (sdk_connect sdk))
       (builtServer todoAssets) (fun _ => OnClose (sdk_sessionId sdk))
       (with_responses (insert (fresh (dom (responses w))) freshResponse) w)).
Proof.
  intros Hu Hpre Hget Hload Hok.
  rewrite (on_request_stream sdk req u w _ Hu Hpre Hget eq_refl).
  erewrite handleSseRequest_eq;
    [| cbn; apply lookup_insert_eq | reflexivity | exact Hload].
  now rewrite Hok.
Qed.

(** X7 — A stream-open that connects adds exactly one session, one server
    object and one transport, all new: the session is entered under the
    transport's id and holds the two new handles, the transport carries
    the message path, the session id and both callbacks, the response is
    what the connect call left, nothing is logged, and every other
    session, server and transport is as before. *)
Theorem stream_open_adds_one_session (sdk : Sdk) (req : IncomingMessage) (u : URL)
  (w : World) (todoAssets : WidgetAssets) :
  url req = Some u -> isPreflight req u = false -> isStreamOpen req u = true ->
  loadWidgetAssets dir join (disk w) "todo" = Normal todoAssets ->
  sdk_error (sdk_connect sdk) = None ->
  let id := sdk_sessionId sdk in
  let h := fresh (dom (servers w)) in
  let t := fresh (dom (transports w)) in
  exists res w1,
    on_request dir join sdk req w = (Normal res, w1) /\
    responses w !! res = None /\ servers w !! h = None /\ transports w !! t = None /\
    sessions w1 = <[id := mkSession h t]> (sessions w) /\
    servers w1 = <[h := builtServer todoAssets]> (servers w) /\
    transports w1 =
      <[t := mkTransport postPath res id (Some (OnClose id)) (Some OnErrorLog)]>
        (transports w) /\
    responses w1 !! res = Some (sdk_res (sdk_connect sdk)) /\
    trace w1 = trace w /\
    (forall id', id' <> id -> sessions w1 !! id' = sessions w !! id').
Proof.
  intros Hu Hpre Hget Hload Hok id h t.
  exists (fresh (dom (responses w))). eexists.
  split; [apply (on_request_opened sdk req u w todoAssets); assumption |].
  split; [apply fresh_response_unused |].
  split; [apply fresh_server_unused |].
  split; [apply not_elem_of_dom, is_fresh |].
  cbn. do 3 (split; [reflexivity |]).
  split; [apply lookup_insert_eq |]. split; [reflexivity |].
  intros id' Hne. now apply lookup_insert_ne.
Qed.

(** X8 — The id a stream-open entered routes later POSTs to the transport
    that open created: a POST carrying the id right after the open calls
    [handlePostMessage] on exactly that transport object, which carries
    the same id; the listener completes, the session table is unchanged,
    and when the transport's handler returns the response is what it
    left. *)
Theorem opened_session_receives_posts (sdk sdk' : Sdk) (req req' : IncomingMessage)
  (u u' : URL) (w : World) (todoAssets : WidgetAssets) :
  url req = Some u -> isPreflight req u = false -> isStreamOpen req u = true ->
  loadWidgetAssets dir join (disk w) "todo" = Normal todoAssets ->
  sdk_error (sdk_connect sdk) = None ->
  sdk_sessionId sdk <> EmptyString ->
  method req' = "POST" -> url req' = Some u' -> pathname u' = postPath ->
  searchParams_get u' "sessionId" = Some (sdk_sessionId sdk) ->
  let id := sdk_sessionId sdk in
  let t := fresh (dom (transports w)) in
  let w1 := snd (on_request dir join sdk req w) in
  let o := sdk_handlePostMessage sdk' in
  exists res' w2,
    on_request dir join sdk' req' w1 = (Normal res', w2) /\
    sessions w1 !! id = Some (mkSession (fresh (dom (servers w))) t) /\
    transports w1 !! t =
      Some (mkTransport postPath (fresh (dom (responses w))) id (Some (OnClose id))
              (Some OnErrorLog)) /\
    sessions w2 = sessions w1 /\
    (sdk_error o = None ->
     responses w2 !! res' = Some (sdk_res o) /\
     trace w2 = HandlePostMessage t :: trace w1) /\
    (forall e, sdk_error o = Some e ->
     trace w2 = ConsoleError "Failed to process message" (err_message e) ::
                HandlePostMessage t :: trace w1).
Proof.
  intros Hu Hpre Hget Hload Hok Hne Hm' Hu' Hp' Hid id t w1 o.
  assert (Hw1 : w1 = opened id (fresh (dom (responses w))) (sdk_res (sdk_connect sdk))
                  (builtServer todoAssets) (fun _ => OnClose id)
                  (with_responses (insert (fresh (dom (responses w))) freshResponse) w)).
  { unfold w1. now rewrite (on_request_opened sdk req u w todoAssets Hu Hpre Hget Hload Hok). }
  assert (Hin : sessions w1 !! id = Some (mkSession (fresh (dom (servers w))) t)).
  { rewrite Hw1. cbn. apply lookup_insert_eq. }
  assert (Htr : transports w1 !! t =
                Some (mkTransport postPath (fresh (dom (responses w))) id (Some (OnClose id))
                        (Some OnErrorLog))).
  { rewrite Hw1. cbn. apply lookup_insert_eq. }
  exists (fresh (dom (responses w1))). eexists.
  split; [apply (on_request_forwarded dir join sdk' req' u' w1 id _ _
                   Hm' Hu' Hp' Hid Hne Hin Htr) |].
  split; [exact Hin |]. split; [exact Htr |].
  destruct (forwarded_facts t o (fresh (dom (responses w1))) w1 (fresh_response_unused w1))
    as (Hs & _ & _ & Hok' & Hfail).
  split; [exact Hs |]. split; [exact Hok' |].
  intros e He. now destruct (Hfail e He).
Qed.

End StreamOpen.

Lemma stream_open_throws_without_assets_witness :
  exists w',
    on_request exampleAssetsDir join_plain (exampleSdk "S1") getStream
      (initialWorld emptyDisk) = (Throw (assetsDirMissing exampleAssetsDir), w') /\
    sessions w' = sessions (initialWorld emptyDisk).
Proof.
  destruct (proj1 (stream_open_throws_without_assets exampleAssetsDir join_plain
                     (exampleSdk "S1") getStream (mkURL ssePath [])
                     (initialWorld emptyDisk) eq_refl eq_refl eq_refl)
              (assetsDirMissing exampleAssetsDir))
    as (w' & Hrun & Hs & _).
  - vm_compute. reflexivity.
  - exists w'. split; assumption.
Defined.

Lemma stream_open_adds_one_session_witness :
  exists res w1,
    on_request exampleAssetsDir join_plain (exampleSdk "S2") getStream oneSession =
      (Normal res, w1) /\
    sessions w1 = <["S2" := mkSession 1 1]> (sessions oneSession).
Proof.
  assert (Hload : loadWidgetAssets exampleAssetsDir join_plain (disk oneSession) "todo" =
                  Normal (mkAssets "render()" EmptyString
                            (widgetHtml "todo" "render()" EmptyString)))
    by (vm_compute; reflexivity).
  destruct (stream_open_adds_one_session exampleAssetsDir join_plain (exampleSdk "S2")
              getStream (mkURL ssePath []) oneSession _ eq_refl eq_refl eq_refl Hload eq_refl)
    as (res & w1 & Hrun & _ & _ & _ & Hs & _).
  exists res, w1. split; [exact Hrun | exact Hs].
Defined.

Lemma opened_session_receives_posts_witness :
  exists res' w2,
    on_request exampleAssetsDir join_plain (exampleSdk "S9")
      (postTo [("sessionId", "S1")])
      (snd (on_request exampleAssetsDir join_plain (exampleSdk "S1") getStream
              (initialWorld builtDisk))) = (Normal res', w2) /\
    responses w2 !! res' = Some (sdk_res accepted) /\
    trace w2 = [HandlePostMessage 0].
Proof.
  assert (Hload : loadWidgetAssets exampleAssetsDir join_plain (disk (initialWorld builtDisk))
                    "todo" =
                  Normal (mkAssets "render()" EmptyString
                            (widgetHtml "todo" "render()" EmptyString)))
    by (vm_compute; reflexivity).
  destruct (opened_session_receives_posts exampleAssetsDir join_plain
              (exampleSdk "S1") (exampleSdk "S9") getStream (postTo [("sessionId", "S1")])
              (mkURL ssePath []) (mkURL postPath [("sessionId", "S1")])
              (initialWorld builtDisk) _ eq_refl eq_refl eq_refl Hload eq_refl
              ltac:(discriminate) eq_refl eq_refl eq_refl eq_refl)
    as (res' & w2 & Hrun & _ & _ & _ & Hok & _).
  destruct (Hok eq_refl) as [Hres Htrace].
  exists res', w2. split; [exact Hrun |]. split; [exact Hres | exact Htrace].
Defined.

(** ** The factory: fresh, populated, unshared *)

Lemma registerTool_elsewhere (h h' : handle) (name : string) (t : RegisteredTool) (w : World) :
  h <> h' -> servers (snd (registerTool h' name t w)) !! h = servers w !! h.
Proof.
  intros Hne. unfold registerTool, bind, read_server.
  destruct (servers w !! h') as [s |]; [| reflexivity].
  destruct (registeredTools s !! name); [reflexivity |].
  cbn. now apply lookup_insert_ne.
Qed.

Section Factory.
Variable dir : string.
Variable join : string -> string -> string.

(** C6, amended — in every world the server can reach from start-up:
    while the built assets load, a call to [createServerInstance] returns
    a handle at which no server object existed and which no session
    refers to, and the object there holds the todo-widget resource and
    the show-todo, refresh-todos and save-todo-state tools (show-todo
    alone in the earlier revision); a later call, after any further
    events, returns another handle and leaves the first object as it was,
    as does registering on the later one; and a stream-open request
    arriving then completes with the new handle entered under its session
    id and under no other when the connect call returns, and under no id
    at all when the connect call throws.  While the assets do not load,
    the call throws the loading error instead of returning, and the
    session map is left as it was. *)
Theorem factory_builds_isolated_servers (fs : FileSystem) (evs : list Event) :
  let w := run dir join evs (initialWorld fs) in
  let h := fresh (dom (servers w)) in
  (forall todoAssets,
     loadWidgetAssets dir join fs "todo" = Normal todoAssets ->
     let w1 := with_servers (insert h (builtServer todoAssets)) w in
     createServerInstance dir join w = (Normal h, w1) /\
     createServerInstance_part000 dir join w =
       (Normal h, with_servers (insert h (builtServer_part000 todoAssets)) w) /\
     servers w !! h = None /\
     (forall id record, sessions w !! id = Some record -> server record <> h) /\
     (forall later,
        exists h2 w3,
          createServerInstance dir join (run dir join later w1) = (Normal h2, w3) /\
          h2 <> h /\
          servers w3 !! h2 = Some (builtServer todoAssets) /\
          servers w3 !! h = Some (builtServer todoAssets) /\
          (forall name t,
             servers (snd (registerTool h2 name t w3)) !! h = Some (builtServer todoAssets))) /\
     (forall sdk req u,
        url req = Some u -> isPreflight req u = false -> isStreamOpen req u = true ->
        exists res w',
          on_request dir join sdk req w = (Normal res, w') /\
          (sdk_error (sdk_connect sdk) = None ->
           sessions w' !! sdk_sessionId sdk =
             Some (mkSession h (fresh (dom (transports w)))) /\
           bound_only_to h (sdk_sessionId sdk) w') /\
          (forall e, sdk_error (sdk_connect sdk) = Some e ->
           forall id record, sessions w' !! id = Some record -> server record <> h))) /\
  (forall e,
     loadWidgetAssets dir join fs "todo" = Throw e ->
     fst (createServerInstance dir join w) = Throw e /\
     sessions (snd (createServerInstance dir join w)) = sessions w).
Proof.
  intros w h.
  destruct (reachable_wf dir join fs evs) as [Hwf Hdisk]. fold w in Hwf, Hdisk.
  assert (Hfresh : servers w !! h = None) by apply fresh_server_unused.
  assert (Hunbound : forall id record, sessions w !! id = Some record -> server record <> h).
  { intros id record Hrec Heq. destruct (Hwf id record Hrec) as [s Hs].
    rewrite Heq in Hs. congruence. }
  split.
  - intros a Hload w1. rewrite <- Hdisk in Hload.
    split; [now apply createServerInstance_ok |].
    split; [now apply createServerInstance_part000_ok |].
    split; [exact Hfresh |]. split; [exact Hunbound |]. split.
    + intros later. set (w2 := run dir join later w1).
      destruct (run_grows dir join later w1) as (Hsub & Hd & _). fold w2 in Hsub, Hd.
      assert (Hh : servers w2 !! h = Some (builtServer a)).
      { eapply lookup_weaken; [| exact Hsub]. cbn. apply lookup_insert_eq. }
      assert (Hne : fresh (dom (servers w2)) <> h).
      { intros Heq. pose proof (fresh_server_unused w2) as Hnone.
        rewrite Heq in Hnone. congruence. }
      exists (fresh (dom (servers w2))). eexists. split.
      * apply createServerInstance_ok. rewrite Hd. exact Hload.
      * split; [exact Hne |]. split; [cbn; apply lookup_insert_eq |].
        assert (Hkept : servers
                  (with_servers (insert (fresh (dom (servers w2))) (builtServer a)) w2)
                  !! h = Some (builtServer a)).
        { cbn. rewrite lookup_insert_ne by exact Hne. exact Hh. }
        split; [exact Hkept |].
        intros name t. rewrite registerTool_elsewhere by (intros Heq; now apply Hne).
        exact Hkept.
    + intros sdk req u Hu Hpre Hget.
      exists (fresh (dom (responses w))). eexists. split.
      * rewrite (on_request_stream dir join sdk req u w _ Hu Hpre Hget eq_refl).
        erewrite handleSseRequest_eq;
          [reflexivity | cbn; apply lookup_insert_eq | reflexivity | exact Hload].
      * split.
        -- intros Hok. rewrite Hok. split; [cbn; apply lookup_insert_eq |].
           intros id' record Hrec. cbn in Hrec.
           destruct (decide (sdk_sessionId sdk = id')) as [<- | Hne].
           ++ rewrite lookup_insert_eq in Hrec. injection Hrec as <-. cbn. tauto.
           ++ rewrite lookup_insert_ne in Hrec by exact Hne.
              split; [intros Heq; now destruct (Hunbound id' record Hrec) | congruence].
        -- intros e He. rewrite He. intros id' record Hrec. cbn in Hrec.
           apply lookup_delete_Some in Hrec as [_ Hrec].
           exact (Hunbound id' record Hrec).
  - intros e Hload. rewrite <- Hdisk in Hload.
    rewrite (createServerInstance_throws dir join w e Hload). split; reflexivity.
Qed.

End Factory.

Lemma factory_builds_isolated_servers_witness :
  createServerInstance exampleAssetsDir join_plain oneSession =
    (Normal 1,
     with_servers
       (insert 1 (builtServer (mkAssets "render()" EmptyString
                                 (widgetHtml "todo" "render()" EmptyString))))
       oneSession) /\
  (exists res w',
     on_request exampleAssetsDir join_plain (exampleSdk "S2") getStream oneSession =
       (Normal res, w') /\
     sessions w' !! "S2" = Some (mkSession 1 1) /\
     bound_only_to 1 "S2" w') /\
  fst (createServerInstance exampleAssetsDir join_plain
         (run exampleAssetsDir join_plain [Request getStream (exampleSdk "S1")]
            (initialWorld emptyDisk))) =
    Throw (assetsDirMissing exampleAssetsDir).
Proof.
  pose proof (proj1 (factory_builds_isolated_servers exampleAssetsDir join_plain builtDisk
                       [Request getStream (exampleSdk "S1")])
                (mkAssets "render()" EmptyString (widgetHtml "todo" "render()" EmptyString))
                ltac:(vm_compute; reflexivity)) as (Hcall & _ & _ & _ & _ & Hbind).
  split; [exact Hcall |]. split.
  - destruct (Hbind (exampleSdk "S2") getStream (mkURL ssePath []) eq_refl eq_refl eq_refl)
      as (res & w' & Hrun & Hok & _).
    destruct (Hok eq_refl) as [Hin Honly].
    exists res, w'. split; [exact Hrun |]. split; [exact Hin | exact Honly].
  - apply (proj2 (factory_builds_isolated_servers exampleAssetsDir join_plain emptyDisk
                    [Request getStream (exampleSdk "S1")])
             (assetsDirMissing exampleAssetsDir) ltac:(vm_compute; reflexivity)).
Defined.

(** C6, as stated, fails: without the built assets a call to the factory
    returns no server at all. *)
Lemma factory_without_assets_returns_nothing :
  fst (createServerInstance exampleAssetsDir join_plain (initialWorld emptyDisk)) =
    Throw (assetsDirMissing exampleAssetsDir) /\
  ~ (exists h w',
       createServerInstance exampleAssetsDir join_plain (initialWorld emptyDisk) = (Normal h, w')).
Proof.
  assert (H : fst (createServerInstance exampleAssetsDir join_plain (initialWorld emptyDisk)) =
              Throw (assetsDirMissing exampleAssetsDir)) by (vm_compute; reflexivity).
  split; [exact H |]. intros (h & w' & Heq). rewrite Heq in H. discriminate.
Qed.

(** * How events move the world *)

Lemma transition_refl (w : World) : transition w w.
Proof. now apply SameSessions. Qed.

(** A quiet computation started in a world that agrees with [w]. *)
Lemma quiet_transition {A : Type} (m : M A) (w w0 : World) :
  sessions w0 = sessions w -> transports w0 = transports w -> servers w0 = servers w ->
  disk w0 = disk w -> quiet m -> transition w (snd (m w0)).
Proof.
  intros Hs Ht Hsv Hd Hq. destruct (Hq w0) as (Hsv' & Ht' & Hs' & Hd').
  apply SameSessions; [congruence | now rewrite Ht', Ht | now rewrite Hsv', Hsv | congruence].
Qed.

Section Transitions.
Variable dir : string.
Variable join : string -> string -> string.

Lemma handleSseRequest_transition (sdk : Sdk) (res : handle) (w w0 : World)
  (r : ServerResponse) :
  sessions w0 = sessions w -> transports w0 = transports w -> servers w0 = servers w ->
  disk w0 = disk w ->
  responses w0 !! res = Some r -> headersSent r = false ->
  transition w (snd (handleSseRequest dir join sdk res w0)).
Proof.
  intros Hs Ht Hsv Hd Hr Hsent.
  assert (Hts : transports w ⊆ <[fresh (dom (transports w0)) :=
                  mkTransport postPath res (sdk_sessionId sdk)
                    (Some (OnClose (sdk_sessionId sdk))) (Some OnErrorLog)]> (transports w0)).
  { rewrite <- Ht. apply insert_subseteq, not_elem_of_dom, is_fresh. }
  assert (Hss : forall s, servers w ⊆ <[fresh (dom (servers w0)) := s]> (servers w0)).
  { intros s. rewrite <- Hsv. apply insert_subseteq, fresh_server_unused. }
  destruct (loadWidgetAssets dir join (disk w0) "todo") as [a | e] eqn:Hload.
  - rewrite (handleSseRequest_eq dir join sdk res w0 r a Hr Hsent Hload). cbn [snd].
    destruct (sdk_error (sdk_connect sdk)) as [e |].
    + apply (RemovedSession _ _ (sdk_sessionId sdk)); cbn;
        [now rewrite Hs | apply Hts | apply Hss | exact Hd].
    + now apply (OpenedSession _ _ (sdk_sessionId sdk) res (sdk_res (sdk_connect sdk))
                   (builtServer a) w0).
  - rewrite (handleSseRequest_throws_eq dir join sdk res w0 r e Hr Hsent Hload). cbn [snd].
    apply SameSessions; cbn; [exact Hs | now rewrite Ht | apply Hss | exact Hd].
Qed.

Lemma on_request_world (sdk : Sdk) (req : IncomingMessage) (w : World) :
  snd (on_request dir join sdk req w) =
  snd (requestListener dir join sdk req (fresh (dom (responses w)))
         (with_responses (insert (fresh (dom (responses w))) freshResponse) w)).
Proof.
  unfold on_request.
  rewrite (bind_normal _ _ _ _ _ (new_ServerResponse_eq w)). unfold bind.
  now destruct (requestListener _ _ _ _ _ _) as [[[] | e] w'].
Qed.

Lemma step_world_request (sdk : Sdk) (req : IncomingMessage) (w : World) :
  snd (step dir join (Request req sdk) w) = snd (on_request dir join sdk req w).
Proof.
  cbn [step]. unfold bind. now destruct (on_request dir join sdk req w) as [[res | e] w'].
Qed.

Lemma step_transition (ev : Event) (w : World) : transition w (snd (step dir join ev w)).
Proof.
  destruct ev as [req sdk | t | t error].
  - rewrite step_world_request, on_request_world, requestListener_routes.
    set (res := fresh (dom (responses w))).
    set (w0 := with_responses (insert res freshResponse) w).
    assert (Hq : forall code hs data,
              transition w (snd (bind (writeHead res code hs) (fun _ => end_ res data) w0))).
    { intros. apply quiet_transition; try reflexivity.
      apply quiet_bind; [apply quiet_writeHead | intros; apply quiet_end]. }
    destruct (url req) as [u |]; [| apply Hq].
    destruct (isPreflight req u); [apply Hq |].
    destruct (isStreamOpen req u).
    { apply handleSseRequest_transition with (r := freshResponse); try reflexivity.
      cbn. apply lookup_insert_eq. }
    destruct (isMessagePost req u); [| apply Hq].
    apply quiet_transition; try reflexivity. apply quiet_handlePostMessage.
  - cbn [step]. unfold fire_close. unfold bind at 1, read_transport.
    destruct (transports w !! t) as [tr |]; [| apply transition_refl].
    destruct (onclose tr) as [cb |]; [| apply transition_refl].
    apply (RemovedSession _ _ (captured cb)); destruct cb as [id | id h]; reflexivity.
  - cbn [step]. apply quiet_transition; try reflexivity. apply quiet_fire_error.
Qed.

(** Events that are not stream-opens never add to the session table. *)
Lemma step_sessions_shrink (ev : Event) (w : World) :
  opensStream ev = false -> sessions (snd (step dir join ev w)) ⊆ sessions w.
Proof.
  intros Hev. destruct ev as [req sdk | t | t error].
  - rewrite step_world_request, on_request_world, requestListener_routes.
    set (res := fresh (dom (responses w))).
    set (w0 := with_responses (insert res freshResponse) w).
    assert (Hq : forall (m : M unit), quiet m -> sessions (snd (m w0)) ⊆ sessions w).
    { intros m Hm. destruct (Hm w0) as (_ & _ & -> & _). reflexivity. }
    assert (Hw : forall code hs data,
              quiet (bind (writeHead res code hs) (fun _ => end_ res data))).
    { intros. apply quiet_bind; [apply quiet_writeHead | intros; apply quiet_end]. }
    cbn in Hev. destruct (url req) as [u |]; [| apply Hq, Hw].
    destruct (isPreflight req u); [apply Hq, Hw |].
    cbn in Hev. rewrite Hev.
    destruct (isMessagePost req u); [apply Hq, quiet_handlePostMessage | apply Hq, Hw].
  - pose proof (step_transition (TransportClose t) w) as Htr.
    cbn [step]. unfold fire_close. unfold bind at 1, read_transport.
    destruct (transports w !! t) as [tr |]; [| reflexivity].
    destruct (onclose tr) as [[id | id h] |]; [| | reflexivity]; apply delete_subseteq.
  - destruct (quiet_fire_error t error w) as (_ & _ & Hs & _). cbn [step]. now rewrite Hs.
Qed.

(** X9 — Every event leaves the session table as it is, removes one id from
    it, or enters one session that holds a new server and a new transport;
    only a stream-open request can add an entry; server objects and
    transports are only ever added, never removed or changed, and the disk
    is never written. *)
Theorem events_move_sessions_three_ways (ev : Event) (w : World) :
  let w' := snd (step dir join ev w) in
  (sessions w' = sessions w \/
   (exists id, sessions w' = delete id (sessions w)) \/
   (exists id record,
      sessions w' = <[id := record]> (sessions w) /\
      servers w !! server record = None /\ transports w !! transport record = None)) /\
  (opensStream ev = false -> sessions w' ⊆ sessions w) /\
  servers w ⊆ servers w' /\ transports w ⊆ transports w' /\ disk w' = disk w.
Proof.
  intros w'. pose proof (step_transition ev w) as Htr. fold w' in Htr.
  split; [| split; [apply step_sessions_shrink |]].
  - destruct Htr as [Hs _ _ _ | id Hs _ _ _ | id res r s w0 Hs Ht Hsv _ Hopen].
    + now left.
    + right; left. now exists id.
    + right; right.
      exists id, (mkSession (fresh (dom (servers w))) (fresh (dom (transports w)))).
      rewrite Hopen. cbn. rewrite Hs, Hsv, Ht.
      split; [reflexivity |].
      split; [apply fresh_server_unused | apply not_elem_of_dom, is_fresh].
  - destruct Htr as [_ Ht Hsv Hd | id _ Ht Hsv Hd | id res r s w0 _ Ht Hsv Hd Hopen];
      [now repeat split | now repeat split |].
    rewrite Hopen. cbn. rewrite Hsv, Ht.
    split; [apply insert_subseteq, fresh_server_unused |].
    split; [apply insert_subseteq, not_elem_of_dom, is_fresh | exact Hd].
Qed.

End Transitions.

Lemma events_move_sessions_three_ways_witness :
  sessions (snd (step exampleAssetsDir join_plain
                   (Request (postTo [("sessionId", "S7")]) (exampleSdk "S2")) oneSession))
    ⊆ sessions oneSession.
Proof.
  apply (proj1 (proj2 (events_move_sessions_three_ways exampleAssetsDir join_plain
                         (Request (postTo [("sessionId", "S7")]) (exampleSdk "S2"))
                         oneSession))).
  reflexivity.
Defined.

Lemma transition_linked (w w' : World) : transition w w' -> linked w -> linked w'.
Proof.
  intros [Hs Ht _ _ | id Hs Ht _ _ | id res r s w0 Hs Ht _ _ ->] Hl id' record Hrec.
  - rewrite Hs in Hrec. destruct (Hl id' record Hrec) as (tr & Htr & Hrest).
    exists tr. split; [eapply lookup_weaken; eassumption | exact Hrest].
  - rewrite Hs in Hrec. apply lookup_delete_Some in Hrec as [_ Hrec].
    destruct (Hl id' record Hrec) as (tr & Htr & Hrest).
    exists tr. split; [eapply lookup_weaken; eassumption | exact Hrest].
  - cbn in Hrec |- *. rewrite Hs in Hrec. rewrite Ht.
    destruct (decide (id = id')) as [<- | Hne].
    + rewrite lookup_insert_eq in Hrec. injection Hrec as <-. cbn.
      rewrite Ht, lookup_insert_eq. eexists. split; [reflexivity |]. repeat split.
    + rewrite lookup_insert_ne in Hrec by exact Hne.
      destruct (Hl id' record Hrec) as (tr & Htr & Hrest).
      exists tr. split; [| exact Hrest].
      eapply lookup_weaken; [exact Htr |].
      apply insert_subseteq, not_elem_of_dom, is_fresh.
Qed.

Section Runs.
Variable dir : string.
Variable join : string -> string -> string.

Lemma run_linked (evs : list Event) (w : World) :
  linked w -> linked (run dir join evs w).
Proof.
  revert w. induction evs as [| ev evs IH]; intros w Hl; [exact Hl |].
  rewrite run_cons. apply IH, (transition_linked w); [apply step_transition | exact Hl].
Qed.

Lemma linked_initialWorld (fs : FileSystem) : linked (initialWorld fs).
Proof. intros id record Hrec. cbn in Hrec. now rewrite lookup_empty in Hrec. Qed.

(** X10 — In every world the server can reach from start-up, each session's
    transport, when closed, takes exactly that session out of the table
    and runs the removal once; an error reported on it leaves the table as
    it is. *)
Theorem close_removes_exactly_its_session (fs : FileSystem) (evs : list Event) (id : string)
  (record : SessionRecord) :
  let w := run dir join evs (initialWorld fs) in
  sessions w !! id = Some record ->
  (exists w',
     step dir join (TransportClose (transport record)) w = (Normal tt, w') /\
     sessions w' = delete id (sessions w) /\
     (forall id', id' <> id -> sessions w' !! id' = sessions w !! id') /\
     deletions id w' = S (deletions id w)) /\
  (forall error,
     sessions (snd (step dir join (TransportError (transport record) error) w)) =
       sessions w).
Proof.
  intros w Hrec.
  destruct (run_linked evs (initialWorld fs) (linked_initialWorld fs) id record Hrec)
    as (tr & Htr & _ & Hclose & Herror).
  split.
  - destruct (fire_close_eq (transport record) w tr id Htr Hclose)
      as (w' & Hrun & Hs & _ & _ & _ & Hd).
    exists w'. split; [exact Hrun |]. split; [exact Hs |]. split; [| exact Hd].
    intros id' Hne. rewrite Hs. now apply lookup_delete_ne.
  - intros error. cbn [step].
    now rewrite (fire_error_eq (transport record) error w tr Htr Herror).
Qed.

Lemma run_sessions_size (evs : list Event) (w : World) :
  size (sessions (run dir join evs w)) <= size (sessions w) + streamOpens evs.
Proof.
  revert w. induction evs as [| ev evs IH]; intros w; [cbn; lia |].
  rewrite run_cons. specialize (IH (snd (step dir join ev w))).
  assert (Hstep : size (sessions (snd (step dir join ev w))) <=
                  size (sessions w) + (if opensStream ev then 1 else 0)).
  { destruct (opensStream ev) eqn:Hev.
    - destruct (step_transition dir join ev w)
        as [Hs _ _ _ | id Hs _ _ _ | id res r s w0 Hs _ _ _ ->].
      + rewrite Hs. lia.
      + rewrite Hs. pose proof (map_subseteq_size _ _ (delete_subseteq (sessions w) id)). lia.
      + cbn. rewrite Hs.
        pose proof (map_size_insert id
                      (mkSession (fresh (dom (servers w0))) (fresh (dom (transports w0))))
                      (sessions w)) as Hsize.
        destruct (sessions w !! id); cbn in Hsize; lia.
    - pose proof (map_subseteq_size _ _ (step_sessions_shrink dir join ev w Hev)). lia. }
  unfold streamOpens in *. cbn [List.filter].
  destruct (opensStream ev); cbn [length]; lia.
Qed.

(** X11 — The table never holds more sessions than stream-open requests have
    arrived since start-up. *)
Theorem sessions_bounded_by_stream_opens (fs : FileSystem) (evs : list Event) :
  size (sessions (run dir join evs (initialWorld fs))) <= streamOpens evs.
Proof.
  pose proof (run_sessions_size evs (initialWorld fs)) as H.
  cbn in H. now rewrite map_size_empty in H.
Qed.

(** X12 — Once allocated, a transport keeps its session id and its callbacks,
    and a server keeps its registries, whatever happens later. *)
Theorem objects_are_never_altered (evs : list Event) (w : World) :
  (forall t tr, transports w !! t = Some tr -> transports (run dir join evs w) !! t = Some tr) /\
  (forall h s, servers w !! h = Some s -> servers (run dir join evs w) !! h = Some s) /\
  disk (run dir join evs w) = disk w.
Proof.
  revert w. induction evs as [| ev evs IH]; intros w; [now repeat split |].
  rewrite run_cons. destruct (IH (snd (step dir join ev w))) as (IHt & IHs & IHd).
  assert (Hstep : transports w ⊆ transports (snd (step dir join ev w)) /\
                  servers w ⊆ servers (snd (step dir join ev w)) /\
                  disk (snd (step dir join ev w)) = disk w).
  { destruct (step_transition dir join ev w)
      as [_ Ht Hsv Hd | id _ Ht Hsv Hd | id res r s w0 _ Ht Hsv Hd ->];
      [now repeat split | now repeat split |].
    cbn. rewrite Ht, Hsv.
    split; [apply insert_subseteq, not_elem_of_dom, is_fresh |].
    split; [apply insert_subseteq, fresh_server_unused | exact Hd]. }
  destruct Hstep as (Ht & Hsv & Hd).
  split; [| split; [| congruence]].
  - intros t tr Htr. apply IHt. eapply lookup_weaken; eassumption.
  - intros h s Hs. apply IHs. eapply lookup_weaken; eassumption.
Qed.

End Runs.

Lemma close_removes_exactly_its_session_witness :
  exists w',
    step exampleAssetsDir join_plain (TransportClose 0) oneSession = (Normal tt, w') /\
    sessions w' = delete "S1" (sessions oneSession).
Proof.
  destruct (proj1 (close_removes_exactly_its_session exampleAssetsDir join_plain builtDisk
                     [Request getStream (exampleSdk "S1")] "S1" (mkSession 0 0)
                     ltac:(vm_compute; reflexivity)))
    as (w' & Hrun & Hs & _).
  exists w'. split; [exact Hrun | exact Hs].
Defined.

Lemma objects_are_never_altered_witness :
  transports (run exampleAssetsDir join_plain
                [TransportError 0 "ECONNRESET"; TransportClose 0;
                 Request getStream (exampleSdk "S2")] oneSession) !! 0 =
    Some (mkTransport postPath 0 "S1" (Some (OnClose "S1")) (Some OnErrorLog)).
Proof.
  apply (proj1 (objects_are_never_altered exampleAssetsDir join_plain
                  [TransportError 0 "ECONNRESET"; TransportClose 0;
                   Request getStream (exampleSdk "S2")] oneSession)).
  vm_compute. reflexivity.
Defined.

(** * Further properties of the tools *)

Lemma or_else_defaulted (given : option string) (d : string) :
  d <> EmptyString -> defaulted given d (or_else given d).
Proof.
  intros Hd. unfold defaulted, or_else.
  destruct given as [s |]; [destruct (String.eqb_spec s EmptyString) as [-> | Hs] |].
  - split; [exact Hd |]. split; [reflexivity |]. intros s [= <-] Hne. congruence.
  - split; [exact Hs |]. split; [| intros s' [= <-] _; reflexivity].
    intros [H | H]; congruence.
  - split; [exact Hd |]. split; [reflexivity | discriminate].
Qed.

(** X13 — The three handlers never show an empty user id or list id: an absent
    or empty one is shown as "anonymous" (as "main-list" for a list id),
    any other is shown as given; save-todo-state logs the same user. *)
Theorem handlers_default_missing_ids (now : Clock) (message : string)
  (todos : list SavedTodo) (listId userId : option string) :
  exists shownList shownUser,
    defaulted listId "main-list" shownList /\ defaulted userId "anonymous" shownUser /\
    jget "userId" (structuredContent (show_todo_handler message userId)) =
      Some (JStr shownUser) /\
    jget "userId" (structuredContent (refresh_todos_handler now listId userId)) =
      Some (JStr shownUser) /\
    jget "lists" (structuredContent (refresh_todos_handler now listId userId)) =
      Some (JArr [todo_list_json shownList refreshedTodos]) /\
    jget "userId" (structuredContent (fst (save_todo_state_handler now todos listId userId))) =
      Some (JStr shownUser) /\
    jget "listId" (structuredContent (fst (save_todo_state_handler now todos listId userId))) =
      Some (JStr shownList) /\
    snd (save_todo_state_handler now todos listId userId) =
      ["Saving " +:+ pretty (length todos) +:+ " todos for user " +:+ shownUser].
Proof.
  exists (or_else listId "main-list"), (or_else userId "anonymous").
  split; [apply or_else_defaulted; discriminate |].
  split; [apply or_else_defaulted; discriminate |].
  repeat split.
Qed.

Lemma knownTools_show_todo (todoAssets : WidgetAssets) :
  registeredTools (builtServer todoAssets) !! "show-todo" = Some show_todo_tool.
Proof. reflexivity. Qed.

Lemma knownTools_save_todo_state (todoAssets : WidgetAssets) :
  registeredTools (builtServer todoAssets) !! "save-todo-state" = Some save_todo_state_tool.
Proof. reflexivity. Qed.

(** X14 — On a built server, show-todo runs its handler exactly on the objects
    whose message is a string and whose userId is absent or a string;
    every other argument (no argument, a non-object, a missing or
    non-string message, a non-string userId) is refused as invalid input
    and the handler is not run. *)
Theorem show_todo_validates_input (todoAssets : WidgetAssets) (now : Clock) :
  (forall fields,
     invoke (builtServer todoAssets) now "show-todo" (Some (JObj fields)) =
       match assoc_get "message" fields, assoc_get "userId" fields with
       | Some (JStr m), None => Invoked (show_todo_handler m None) []
       | Some (JStr m), Some (JStr u) => Invoked (show_todo_handler m (Some u)) []
       | _, _ => InvalidInput
       end) /\
  invoke (builtServer todoAssets) now "show-todo" None = InvalidInput /\
  (forall raw,
     (forall fields, raw <> JObj fields) ->
     invoke (builtServer todoAssets) now "show-todo" (Some raw) = InvalidInput).
Proof.
  split; [| split].
  - intros fields. unfold invoke. rewrite knownTools_show_todo.
    unfold show_todo_tool, tool, tool_call, show_todo_inputSchema, z_object, z_key.
    change (default (JObj []) (Some (JObj fields))) with (JObj fields).
    cbn [jget].
    destruct (assoc_get "message" fields) as [[| | | m | |] |]; try reflexivity.
    destruct (assoc_get "userId" fields) as [[| | | u | |] |]; reflexivity.
  - reflexivity.
  - intros raw Hraw. unfold invoke. rewrite knownTools_show_todo.
    destruct raw; try reflexivity. now destruct (Hraw fields).
Qed.

Lemma show_todo_validates_input_witness :
  invoke (builtServer (mkAssets "render()" EmptyString EmptyString)) (fun _ => "now")
    "show-todo" (Some (JStr "hi")) = InvalidInput.
Proof.
  apply (proj2 (proj2 (show_todo_validates_input
                         (mkAssets "render()" EmptyString EmptyString) (fun _ => "now")))).
  discriminate.
Defined.

(** Parsing gives back the todo that was written as JSON. *)
Lemma saved_todo_roundtrip (t : SavedTodo) :
  saved_todo_schema (Some (saved_todo_json t)) = Some t.
Proof. destruct t as [i ti c [n |] [d |]]; reflexivity. Qed.

Lemma saved_todos_roundtrip (todos : list SavedTodo) :
  z_array saved_todo_schema (Some (JArr (saved_todo_json <$> todos))) = Some todos.
Proof.
  unfold z_array. induction todos as [| t todos IH]; [reflexivity |].
  cbn [fmap list_fmap]. cbn [mapM]. rewrite saved_todo_roundtrip. cbn.
  cbn in IH. rewrite IH. reflexivity.
Qed.

(** X15 — On a built server, save-todo-state accepts every list of todos
    written as JSON, with or without list and user ids, runs its handler
    on exactly those todos, and reports their number, whatever they are,
    in the text, in the structured content and in the metadata. *)
Theorem save_todo_state_counts (todoAssets : WidgetAssets) (now : Clock)
  (todos : list SavedTodo) (listId userId : option string) :
  let raw := JObj (("todos", JArr (saved_todo_json <$> todos)) ::
                   optional_field "listId" listId ++ optional_field "userId" userId) in
  let out := save_todo_state_handler now todos listId userId in
  invoke (builtServer todoAssets) now "save-todo-state" (Some raw) =
    Invoked (fst out) (snd out) /\
  jget "savedTodos" (structuredContent (fst out)) = Some (JNum (Z.of_nat (length todos))) /\
  jget "savedTodos" (_meta (fst out)) = Some (JNum (Z.of_nat (length todos))) /\
  content (fst out) =
    [mkText "text" ("Saved " +:+ pretty (length todos) +:+ " todos successfully.")].
Proof.
  intros raw out. split; [| repeat split].
  unfold invoke. rewrite knownTools_save_todo_state.
  unfold save_todo_state_tool, tool, tool_call, save_todo_state_inputSchema, z_object, z_key.
  unfold raw.
  match goal with
  | |- context [default (JObj []) (Some ?v)] =>
      change (default (JObj []) (Some v)) with v
  end.
  cbn [jget assoc_get String.eqb Ascii.eqb Bool.eqb].
  rewrite saved_todos_roundtrip.
  destruct listId, userId; reflexivity.
Qed.

Lemma handlers_default_missing_ids_witness :
  jget "userId" (structuredContent (show_todo_handler "hi" (Some EmptyString))) =
    Some (JStr "anonymous") /\
  jget "userId" (structuredContent (show_todo_handler "hi" (Some "u42"))) =
    Some (JStr "u42").
Proof.
  split.
  - destruct (handlers_default_missing_ids (fun _ => "now") "hi" [] None (Some EmptyString))
      as (l & u & _ & (_ & Hdefault & _) & Hshow & _).
    rewrite Hshow, (Hdefault (or_intror eq_refl)). reflexivity.
  - destruct (handlers_default_missing_ids (fun _ => "now") "hi" [] None (Some "u42"))
      as (l & u & _ & (_ & _ & Hgiven) & Hshow & _).
    rewrite Hshow, (Hgiven "u42" eq_refl ltac:(discriminate)). reflexivity.
Defined.

(** * Further properties of the assets and the configuration *)

Section Markup.
Variable dir : string.
Variable join : string -> string -> string.

(** X16 — The style sheet is optional: when the asset directory and the bundle
    are there, loading succeeds whether the style sheet can be read or
    not; a style sheet that is missing, is a directory or is empty leaves
    the markup without a style element, any other is inlined between the
    root element and the script; the bundle's text is inlined as it is. *)
Theorem stylesheet_is_optional (fs : FileSystem) (componentName text : string) :
  is_Some (fs !! dir) ->
  fs !! join dir (componentName +:+ ".js") = Some (FsFile text) ->
  let cssPath := join dir (componentName +:+ ".css") in
  let root := "<div id=" +:+ dquote +:+ componentName +:+ "-root" +:+ dquote +:+ "></div>" in
  let script :=
    "<script type=" +:+ dquote +:+ "module" +:+ dquote +:+ ">" +:+ text +:+ "</script>" in
  ((fs !! cssPath = None \/ fs !! cssPath = Some FsDir \/
    fs !! cssPath = Some (FsFile EmptyString)) ->
   loadWidgetAssets dir join fs componentName =
     Normal (mkAssets text EmptyString (root +:+ newline +:+ newline +:+ script))) /\
  (forall sheet,
     fs !! cssPath = Some (FsFile sheet) -> sheet <> EmptyString ->
     loadWidgetAssets dir join fs componentName =
       Normal (mkAssets text sheet
                 (root +:+ newline +:+ "<style>" +:+ sheet +:+ "</style>" +:+ newline +:+
                  script))).
Proof.
  intros [d Hdir] Hjs cssPath root script.
  assert (Hload : loadWidgetAssets dir join fs componentName =
            Normal (mkAssets text
                      (match readFileSync fs cssPath with
                       | Normal s => s
                       | Throw _ => EmptyString
                       end)
                      (widgetHtml componentName text
                         (match readFileSync fs cssPath with
                          | Normal s => s
                          | Throw _ => EmptyString
                          end)))).
  { unfold loadWidgetAssets, existsSync. rewrite Hdir. cbn [negb].
    rewrite Hjs. cbn [negb]. unfold readFileSync at 1. rewrite Hjs. reflexivity. }
  assert (Happ : forall a b c : string, (a +:+ b) +:+ c = a +:+ b +:+ c).
  { intros a b c. induction a as [| x a IH]; [reflexivity |].
    change (String x ((a +:+ b) +:+ c) = String x (a +:+ b +:+ c)). now f_equal. }
  split.
  - intros Hcss. rewrite Hload. unfold readFileSync.
    destruct Hcss as [-> | [-> | ->]]; unfold widgetHtml; cbn [String.eqb];
      subst root script; rewrite ?Happ; reflexivity.
  - intros sheet Hcss Hne. rewrite Hload. unfold readFileSync. rewrite Hcss.
    unfold widgetHtml. destruct (String.eqb_spec sheet EmptyString) as [-> | _];
      [congruence |].
    subst root script. rewrite ?Happ. reflexivity.
Qed.

End Markup.

Lemma stylesheet_is_optional_witness :
  loadWidgetAssets exampleAssetsDir join_plain builtDisk "todo" =
    Normal (mkAssets "render()" EmptyString
              (("<div id=" +:+ dquote +:+ "todo" +:+ "-root" +:+ dquote +:+ "></div>") +:+
               newline +:+ newline +:+
               ("<script type=" +:+ dquote +:+ "module" +:+ dquote +:+ ">" +:+ "render()" +:+
                "</script>"))).
Proof.
  apply (proj1 (stylesheet_is_optional exampleAssetsDir join_plain builtDisk "todo" "render()"
                  ltac:(exists FsDir; vm_compute; reflexivity)
                  ltac:(vm_compute; reflexivity))).
  left. vm_compute. reflexivity.
Defined.

(** X17 — Whatever PORT holds and however strings convert to numbers, the port
    the server listens on is a finite number. *)
Theorem port_is_finite (StringToNumber : string -> JsNumber) (PORT : option string) :
  isFinite (port StringToNumber PORT) = true.
Proof.
  unfold port. destruct (isFinite (portEnv StringToNumber PORT)) eqn:H; [exact H | reflexivity].
Qed.

(** ** The base URL *)

Lemma strip_never_ends_with_slash (s : string) :
  endsWithSlash (stripTrailingSlashes s) = false.
Proof.
  induction s as [| c s IH]; [reflexivity |]. cbn [stripTrailingSlashes].
  destruct (stripTrailingSlashes s) as [| k kept] eqn:Hk.
  - destruct (Ascii.eqb c slash) eqn:Hc; [reflexivity | cbn; exact Hc].
  - exact IH.
Qed.

Lemma strip_keeps_clean (s : string) :
  endsWithSlash s = false -> stripTrailingSlashes s = s.
Proof.
  induction s as [| c s IH]; [reflexivity |]. intros Hend. cbn [stripTrailingSlashes].
  destruct s as [| c' s'].
  - cbn in *. now rewrite Hend.
  - rewrite IH by exact Hend. reflexivity.
Qed.

Section BaseUrlProperties.
Variable trim : string -> string.

(** X18 — The base URL that build.mts writes into the generated HTML is never
    empty and never ends with a slash; it is the default when BASE_URL is
    unset, blank after trimming or made of slashes only, and the trimmed
    BASE_URL without its trailing slashes otherwise. *)
Theorem normalizedBaseUrl_is_clean (BASE_URL : option string) :
  let given := match BASE_URL with Some s => trim s | None => EmptyString end in
  normalizedBaseUrl trim BASE_URL <> EmptyString /\
  endsWithSlash (normalizedBaseUrl trim BASE_URL) = false /\
  (stripTrailingSlashes given = EmptyString ->
   normalizedBaseUrl trim BASE_URL = defaultBaseUrl) /\
  (stripTrailingSlashes given <> EmptyString ->
   normalizedBaseUrl trim BASE_URL = stripTrailingSlashes given) /\
  (given <> EmptyString -> endsWithSlash given = false ->
   normalizedBaseUrl trim BASE_URL = given).
Proof.
  intros given.
  assert (Hraw : normalizedBaseUrl trim BASE_URL =
            match stripTrailingSlashes given with
            | EmptyString => defaultBaseUrl
            | stripped => stripped
            end).
  { unfold normalizedBaseUrl. fold given. destruct given; reflexivity. }
  rewrite Hraw. pose proof (strip_never_ends_with_slash given) as Hclean.
  split; [| split; [| split; [| split]]].
  - destruct (stripTrailingSlashes given); discriminate.
  - destruct (stripTrailingSlashes given); [reflexivity | exact Hclean].
  - now intros ->.
  - destruct (stripTrailingSlashes given); congruence.
  - intros Hne Hend. rewrite (strip_keeps_clean given Hend).
    destruct given; congruence.
Qed.

(** X19 — The earlier build script has no fallback after stripping: its base
    URL never ends with a slash either, but it is empty exactly when
    BASE_URL is not blank and made of slashes only; in every other case
    the two scripts compute the same base URL. *)
Theorem baseUrl_part001_may_be_empty (BASE_URL : option string) :
  endsWithSlash (baseUrl_part001 trim BASE_URL) = false /\
  (baseUrl_part001 trim BASE_URL = EmptyString <->
   exists s, BASE_URL = Some s /\ trim s <> EmptyString /\
             stripTrailingSlashes (trim s) = EmptyString) /\
  (baseUrl_part001 trim BASE_URL <> EmptyString ->
   baseUrl_part001 trim BASE_URL = normalizedBaseUrl trim BASE_URL).
Proof.
  unfold baseUrl_part001, normalizedBaseUrl.
  split; [apply strip_never_ends_with_slash |].
  destruct BASE_URL as [s |].
  - destruct (String.eqb_spec (trim s) EmptyString) as [He | Hne].
    + rewrite He. split; [split; [discriminate |] | reflexivity].
      intros (s' & [= <-] & Hs' & _). congruence.
    + assert (Hlen : Nat.ltb 0 (String.length (trim s)) = true)
        by (destruct (trim s); [congruence | reflexivity]).
      rewrite Hlen. split.
      * split; [intros Hstrip; now exists s |]. now intros (s' & [= <-] & _ & Hstrip).
      * destruct (stripTrailingSlashes (trim s)); [congruence | reflexivity].
  - split; [split; [discriminate |] | reflexivity].
    intros (s' & Hs' & _). discriminate.
Qed.

End BaseUrlProperties.

Lemma normalizedBaseUrl_is_clean_witness :
  normalizedBaseUrl trimBlanks (Some "  https://example.com/app//  ") =
    "https://example.com/app" /\
  normalizedBaseUrl trimBlanks (Some " /// ") = defaultBaseUrl.
Proof.
  split.
  - apply (proj1 (proj2 (proj2 (proj2 (normalizedBaseUrl_is_clean trimBlanks
                                          (Some "  https://example.com/app//  ")))))).
    discriminate.
  - apply (proj1 (proj2 (proj2 (normalizedBaseUrl_is_clean trimBlanks (Some " /// "))))).
    reflexivity.
Defined.

Lemma baseUrl_part001_may_be_empty_witness :
  baseUrl_part001 trimBlanks (Some " /// ") = EmptyString /\
  baseUrl_part001 trimBlanks (Some "https://example.com/") =
    normalizedBaseUrl trimBlanks (Some "https://example.com/").
Proof.
  split.
  - apply (proj2 (proj1 (proj2 (baseUrl_part001_may_be_empty trimBlanks (Some " /// "))))).
    exists " /// ". split; [reflexivity |]. split; [discriminate | reflexivity].
  - apply (proj2 (proj2 (baseUrl_part001_may_be_empty trimBlanks
                           (Some "https://example.com/")))).
    discriminate.
Defined.

(** * The listener on the request as it arrives *)

Section RawListener.
Variable dir : string.
Variable join : string -> string -> string.
Variable newURL : string -> string -> Completion URL.

(** Once the target has parsed, the listener is the router on the parsed
    request. *)
Lemma on_raw_request_parsed (sdk : Sdk) (req : RawRequest) (target : string) (u : URL)
  (w : World) :
  raw_url req = Some target -> target <> EmptyString ->
  newURL target (baseOf req) = Normal u ->
  on_raw_request dir join newURL sdk req w =
    on_request dir join sdk (mkReq (raw_method req) (Some u)) w.
Proof.
  intros Hurl Hne Hparse. unfold on_raw_request, on_request.
  rewrite !(bind_normal _ _ _ _ _ (new_ServerResponse_eq w)).
  unfold listener. rewrite Hurl. cbn [falsy default].
  destruct (String.eqb_spec target EmptyString) as [-> | _]; [congruence |].
  unfold bind at 2, liftC. cbn. rewrite Hparse. reflexivity.
Qed.

(** X3 — Every request whose target is present and parses as a URL, and
    that is not a preflight on either path, a GET of the stream path or a
    POST to the message path, is answered 404 "Not Found", and nothing
    else moves. *)
Theorem unrouted_is_404 (sdk : Sdk) (req : RawRequest) (target : string) (u : URL)
  (w : World) :
  raw_url req = Some target -> target <> EmptyString ->
  newURL target (baseOf req) = Normal u ->
  let parsed := mkReq (raw_method req) (Some u) in
  isPreflight parsed u = false -> isStreamOpen parsed u = false ->
  isMessagePost parsed u = false ->
  answered w (on_raw_request dir join newURL sdk req w)
    (mkRes [] 404 true "Not Found" true).
Proof.
  intros Hurl Hne Hparse parsed Hpre Hget Hpost.
  rewrite (on_raw_request_parsed sdk req target u w Hurl Hne Hparse). fold parsed.
  apply on_request_answered. intros res.
  rewrite requestListener_routes. cbn [url parsed]. now rewrite Hpre, Hget, Hpost.
Qed.

(** X5 — An exception escapes the listener on a request that is not a
    stream-open exactly when [new URL] throws on its target: then the
    exception is that one, the response is left unanswered, and nothing
    else moves.  A request without a target is answered 400 "Missing
    URL"; one whose target parses and that is not handed to
    [handleSseRequest] completes, whatever the SDK's transport does, and
    leaves sessions, servers and transports as they were. *)
Theorem listener_throws_only_on_bad_target (sdk : Sdk) (req : RawRequest) (w : World) :
  (falsy (raw_url req) = true ->
   answered w (on_raw_request dir join newURL sdk req w)
     (mkRes [] 400 true "Missing URL" true)) /\
  (forall target e,
     raw_url req = Some target -> target <> EmptyString ->
     newURL target (baseOf req) = Throw e ->
     exists w',
       on_raw_request dir join newURL sdk req w = (Throw e, w') /\
       sessions w' = sessions w /\ servers w' = servers w /\
       transports w' = transports w /\ trace w' = trace w /\
       responses w' !! fresh (dom (responses w)) = Some freshResponse) /\
  (forall target u,
     raw_url req = Some target -> target <> EmptyString ->
     newURL target (baseOf req) = Normal u ->
     let parsed := mkReq (raw_method req) (Some u) in
     isPreflight parsed u = true \/ isStreamOpen parsed u = false ->
     exists res w',
       on_raw_request dir join newURL sdk req w = (Normal res, w') /\
       sessions w' = sessions w /\ servers w' = servers w /\ transports w' = transports w).
Proof.
  split; [| split].
  - intros Hfalsy. exists (fresh (dom (responses w))). eexists. split.
    + unfold on_raw_request.
      rewrite (bind_normal _ _ _ _ _ (new_ServerResponse_eq w)).
      unfold listener. rewrite Hfalsy.
      rewrite (bind_normal _ _ _ _ _ (writeHead_end_fresh _ 400 [] "Missing URL" w)).
      reflexivity.
    + split; [apply fresh_response_unused |].
      cbn. rewrite lookup_insert_eq. repeat split.
  - intros target e Hurl Hne Hparse. eexists. split.
    + unfold on_raw_request.
      rewrite (bind_normal _ _ _ _ _ (new_ServerResponse_eq w)).
      unfold listener. rewrite Hurl. cbn [falsy default].
      destruct (String.eqb_spec target EmptyString) as [-> | _]; [congruence |].
      unfold bind, liftC. cbn. rewrite Hparse. reflexivity.
    + cbn. rewrite lookup_insert_eq. repeat split.
  - intros target u Hurl Hne Hparse parsed Hroute.
    rewrite (on_raw_request_parsed sdk req target u w Hurl Hne Hparse). fold parsed.
    apply parsed_request_completes.
    intros u' [= <-] Hpre. destruct Hroute as [Hroute | Hroute]; congruence.
Qed.

End RawListener.

Lemma unrouted_is_404_witness :
  answered oneSession
    (on_raw_request exampleAssetsDir join_plain exampleNewURL (exampleSdk "S2")
       (mkRaw "DELETE" (Some "/mcp") (Some "localhost:8000")) oneSession)
    (mkRes [] 404 true "Not Found" true).
Proof.
  apply (unrouted_is_404 exampleAssetsDir join_plain exampleNewURL (exampleSdk "S2")
           (mkRaw "DELETE" (Some "/mcp") (Some "localhost:8000")) "/mcp" (mkURL "/mcp" [])
           oneSession);
    first [reflexivity | discriminate].
Defined.

Lemma listener_throws_only_on_bad_target_witness :
  (exists w',
     on_raw_request exampleAssetsDir join_plain exampleNewURL (exampleSdk "S2")
       (mkRaw "POST" (Some "//") None) oneSession =
       (Throw (mkError "TypeError: Invalid URL"), w') /\
     sessions w' = sessions oneSession) /\
  (exists res w',
     on_raw_request exampleAssetsDir join_plain exampleNewURL refusingSdk
       (mkRaw "POST" (Some "/mcp/messages") None) oneSession = (Normal res, w') /\
     sessions w' = sessions oneSession).
Proof.
  split.
  - destruct (proj1 (proj2 (listener_throws_only_on_bad_target exampleAssetsDir join_plain
                              exampleNewURL (exampleSdk "S2")
                              (mkRaw "POST" (Some "//") None) oneSession))
                "//" (mkError "TypeError: Invalid URL") eq_refl ltac:(discriminate) eq_refl)
      as (w' & Hrun & Hs & _).
    exists w'. split; assumption.
  - destruct (proj2 (proj2 (listener_throws_only_on_bad_target exampleAssetsDir join_plain
                              exampleNewURL refusingSdk
                              (mkRaw "POST" (Some "/mcp/messages") None) oneSession))
                "/mcp/messages" (mkURL "/mcp/messages" []) eq_refl ltac:(discriminate)
                eq_refl (or_intror eq_refl))
      as (res & w' & Hrun & Hs & _).
    exists res, w'. split; assumption.
Defined.

(** * Forwarding in reachable worlds *)

Section ForwardingReachable.
Variable dir : string.
Variable join : string -> string -> string.

(** X4 — In every world the server can reach from start-up, a POST that
    names a session in the table calls [handlePostMessage] on the
    transport object that session holds, which carries the same session
    id, and always completes: when the transport's handler returns, the
    response is what it left; when it throws, the error is logged and the
    response gets status 500 with the body "Failed to process message"
    unless its headers were already sent, in which case it is left
    alone.  Sessions, servers and transports stay as they were in every
    case. *)
Theorem known_session_is_forwarded (fs : FileSystem) (evs : list Event) (sdk : Sdk)
  (req : IncomingMessage) (u : URL) (id : string) (record : SessionRecord) :
  let w := run dir join evs (initialWorld fs) in
  method req = "POST" -> url req = Some u -> pathname u = postPath ->
  searchParams_get u "sessionId" = Some id -> id <> EmptyString ->
  sessions w !! id = Some record ->
  let o := sdk_handlePostMessage sdk in
  let t := transport record in
  exists tr res w',
    transports w !! t = Some tr /\ sessionId tr = id /\
    on_request dir join sdk req w = (Normal res, w') /\
    responses w !! res = None /\
    sessions w' = sessions w /\ servers w' = servers w /\ transports w' = transports w /\
    (sdk_error o = None ->
     responses w' !! res = Some (sdk_res o) /\
     trace w' = HandlePostMessage t :: trace w) /\
    (forall e, sdk_error o = Some e ->
     trace w' = ConsoleError "Failed to process message" (err_message e) ::
                HandlePostMessage t :: trace w /\
     (headersSent (sdk_res o) = true -> responses w' !! res = Some (sdk_res o)) /\
     (headersSent (sdk_res o) = false -> writableEnded (sdk_res o) = false ->
      responses w' !! res =
        Some (mkRes (res_headers (sdk_res o)) 500 true
                (res_body (sdk_res o) +:+ "Failed to process message") true))).
Proof.
  intros w Hm Hu Hp Hid Hne Hrec o t.
  destruct (run_linked dir join evs (initialWorld fs) (linked_initialWorld fs) id record Hrec)
    as (tr & Htr & Hsid & _).
  exists tr, (fresh (dom (responses w))). eexists.
  split; [exact Htr |]. split; [exact Hsid |].
  split; [apply (on_request_forwarded dir join sdk req u w id record tr); assumption |].
  split; [apply fresh_response_unused |].
  apply (forwarded_facts t o (fresh (dom (responses w))) w), fresh_response_unused.
Qed.

End ForwardingReachable.

Lemma known_session_is_forwarded_witness :
  exists res w',
    on_request exampleAssetsDir join_plain postingSdk
      (postTo [("sessionId", "S1")]) oneSession = (Normal res, w') /\
    responses w' !! res = Some (sdk_res acceptedPost) /\
    trace w' = HandlePostMessage 0 :: trace oneSession /\
    sessionId <$> transports oneSession !! 0 = Some "S1".
Proof.
  destruct (known_session_is_forwarded exampleAssetsDir join_plain builtDisk
              [Request getStream (exampleSdk "S1")] postingSdk
              (postTo [("sessionId", "S1")]) (mkURL postPath [("sessionId", "S1")])
              "S1" (mkSession 0 0) eq_refl eq_refl eq_refl eq_refl ltac:(discriminate)
              ltac:(vm_compute; reflexivity))
    as (tr & res & w' & Htr & Hsid & Hrun & _ & _ & _ & _ & Hok & _).
  destruct (Hok eq_refl) as [Hres Htrace].
  exists res, w'. split; [exact Hrun |]. split; [exact Hres |]. split; [exact Htrace |].
  change (transports oneSession !! 0) with
    (transports (run exampleAssetsDir join_plain [Request getStream (exampleSdk "S1")]
                   (initialWorld builtDisk)) !! transport (mkSession 0 0)).
  rewrite Htr. cbn. now rewrite Hsid.
Defined.
